(** * Hand-gesture Arduino controller: finger counter, command channel, frame cycle

    A shallow embedding of [hand_arduino_controller.py]:
    - [AHMDHandDetector.akCountFingers]  (module [Detector]),
    - [AKArduinoController] with [ahmdConnect], [akSendData], [ahmdDisconnect]
      (module [Channel]),
    - [AHMDHandDetector.akDetectHands] and
      [AHMDGestureController.ahmdProcessFrame], over an abstract camera and
      landmark model  (module [Loop]).

    Python integers are unbounded, so they are [Z].  Exceptions are explicit:
    a computation returns an [outcome].  The serial port, the clock and the
    logger are recorded as a chronological trace of events. *)

From Stdlib Require Import String Ascii ZArith List Bool Lia.
From Stdlib.Strings Require Import Byte.
From Stdlib Require Import DecimalString.
Import ListNotations.

Local Open Scope Z_scope.

(* ------------------------------------------------------------------ *)
(** ** A small model of the Python values and control the source uses *)

Module Py.

(** The exception classes that can occur in the modelled methods. *)
Inductive exn : Type :=
| IndexError
| AttributeError
| SerialException (msg : string).

Inductive outcome (A : Type) : Type :=
| Return (a : A)
| Raise (e : exn).
Arguments Return {A} a.
Arguments Raise {A} e.

Definition bind {A B} (m : outcome A) (k : A -> outcome B) : outcome B :=
  match m with
  | Return a => k a
  | Raise e => Raise e
  end.

(** [len(l)] *)
Definition len {A} (l : list A) : Z := Z.of_nat (length l).

(** [l[i]] on a list: negative indices count from the end, an index out
    of range raises [IndexError]. *)
Definition getitem {A} (l : list A) (i : Z) : outcome A :=
  let j := if i <? 0 then len l + i else i in
  if (j <? 0) || (len l <=? j) then Raise IndexError
  else match nth_error l (Z.to_nat j) with
       | Some a => Return a
       | None => Raise IndexError
       end.

(** [t[i]] on a 3-tuple of integers. *)
Definition item3 (t : Z * Z * Z) (i : Z) : outcome Z :=
  let '(a, b, c) := t in
  let j := if i <? 0 then 3 + i else i in
  if j =? 0 then Return a
  else if j =? 1 then Return b
  else if j =? 2 then Return c
  else Raise IndexError.

(** [range(lo, hi)] *)
Definition range (lo hi : Z) : list Z :=
  map (fun k => lo + Z.of_nat k) (seq 0 (Z.to_nat (hi - lo))).

(** [for x in xs: body], threading the loop's mutable state. *)
Fixpoint for_in {S} (xs : list Z) (body : Z -> S -> outcome S) (s : S)
  : outcome S :=
  match xs with
  | [] => Return s
  | x :: xs' => bind (body x s) (for_in xs' body)
  end.

(** [l.count(v)] on a list of integers. *)
Fixpoint count (l : list Z) (v : Z) : Z :=
  match l with
  | [] => 0
  | x :: l' => (if x =? v then 1 else 0) + count l' v
  end.

End Py.

Import Py.

Declare Scope py_scope.
Delimit Scope py_scope with py.
Notation "x <- m ;; k" := (bind m (fun x => k))
  (at level 61, m at next level, right associativity) : py_scope.
Local Open Scope py_scope.

(* ------------------------------------------------------------------ *)
(** ** AHMDHandDetector *)

Module Detector.

(** One landmark as [akDetectHands] builds it: the tuple [(id, cx, cy)]. *)
Definition Landmark : Type := (Z * Z * Z)%type.

(** [self.akFingerTipIds] *)
Definition akFingerTipIds : list Z := [4; 8; 12; 16; 20].

(** Lines 116-119: the thumb test, appending to [fingers]. *)
Definition thumb_step (landmarks : list Landmark) (fingers : list Z)
  : outcome (list Z) :=
  t0 <- getitem akFingerTipIds 0 ;;
  a <- getitem landmarks t0 ;;
  ax <- item3 a 1 ;;
  t0' <- getitem akFingerTipIds 0 ;;
  b <- getitem landmarks (t0' - 1) ;;
  bx <- item3 b 1 ;;
  if ax >? bx then Return (fingers ++ [1]) else Return (fingers ++ [0]).

(** Lines 122-125: the body of [for i in range(1, 5)]. *)
Definition finger_step (landmarks : list Landmark) (i : Z) (fingers : list Z)
  : outcome (list Z) :=
  ti <- getitem akFingerTipIds i ;;
  a <- getitem landmarks ti ;;
  ay <- item3 a 2 ;;
  ti' <- getitem akFingerTipIds i ;;
  b <- getitem landmarks (ti' - 2) ;;
  by_ <- item3 b 2 ;;
  if ay <? by_ then Return (fingers ++ [1]) else Return (fingers ++ [0]).

(** Lines 114-125: the list [fingers] as it stands before [fingers.count(1)],
    for an input that passed the length test. *)
Definition akFingers (landmarks : list Landmark) : outcome (list Z) :=
  fingers <- thumb_step landmarks [] ;;
  for_in (range 1 5) (finger_step landmarks) fingers.

(** [akCountFingers], lines 109-127. *)
Definition akCountFingers (landmarks : list Landmark) : outcome Z :=
  if negb (len landmarks =? 21) then Return 0
  else
    fingers <- akFingers landmarks ;;
    Return (count fingers 1).

(** *** Reading a hand by position (used to state the properties) *)

Definition landmark_at (hand : list Landmark) (i : nat) : Landmark :=
  nth i hand (0, 0, 0).

(** Horizontal pixel coordinate of landmark [i]. *)
Definition xcoord (hand : list Landmark) (i : nat) : Z :=
  snd (fst (landmark_at hand i)).

(** Vertical pixel coordinate of landmark [i]. *)
Definition ycoord (hand : list Landmark) (i : nat) : Z :=
  snd (landmark_at hand i).

(** The thumb comparison of the source, on coordinates. *)
Definition thumb_right_of_joint (hand : list Landmark) : bool :=
  xcoord hand 3 <? xcoord hand 4.

(** The non-thumb comparison: tip strictly above the landmark two below it. *)
Definition tip_above (hand : list Landmark) (tip : nat) : bool :=
  ycoord hand tip <? ycoord hand (tip - 2).

Definition bit (b : bool) : Z := if b then 1 else 0.

(** The five classifications, thumb first. *)
Definition classified (hand : list Landmark) : list bool :=
  [ thumb_right_of_joint hand;
    tip_above hand 8; tip_above hand 12; tip_above hand 16; tip_above hand 20 ].

(** Number of fingers classified extended. *)
Definition extended_count (hand : list Landmark) : Z :=
  Z.of_nat (length (filter (fun b => b) (classified hand))).

End Detector.

Import Detector.

(* ------------------------------------------------------------------ *)
(** ** AKArduinoController *)

Module Channel.

(** A [serial.Serial] object: which port it was opened on, and a serial
    number telling the objects apart. *)
Record Serial : Type := mkSerial {
  ser_id : nat;
  ser_port : string;
  ser_baud : Z;
  ser_timeout : Z
}.

(** The values handed to [akSendData]: the loop passes an [int], the
    signature announces a [str]. *)
Inductive PyValue : Type :=
| PyInt (n : Z)
| PyStr (s : string).

(** [str(data)] *)
Definition py_str (data : PyValue) : string :=
  match data with
  | PyInt n => NilZero.string_of_int (Z.to_int n)
  | PyStr s => s
  end.

(** UTF-8 encoding of one character with code point below 256. *)
Definition utf8_char (c : ascii) : list byte :=
  let n := N_of_ascii c in
  if (n <? 128)%N then [byte_of_ascii c]
  else [ byte_of_ascii (ascii_of_N (192 + n / 64));
         byte_of_ascii (ascii_of_N (128 + n mod 64)) ].

(** [bytes(s, 'utf-8')] *)
Fixpoint bytes_utf8 (s : string) : list byte :=
  match s with
  | EmptyString => []
  | String c s' => utf8_char c ++ bytes_utf8 s'
  end.

(** What the program does to the outside, in the order it happens.
    [EvCall_akSendData] records an entry into [akSendData]; it has no
    counterpart on the wire. *)
Inductive Event : Type :=
| EvOpened (h : Serial)
| EvOpenFailed (port : string) (msg : string)
| EvSleep (seconds : Z)
| EvWrite (h : Serial) (payload : list byte)
| EvClose (h : Serial)
| EvLogInfo (msg : string)
| EvLogError (msg : string)
| EvCall_akSendData (data : PyValue).

(** The serial device, seen from the program: given what happened so far,
    whether opening a port and whether a write succeeds ([None]) or raises
    [serial.SerialException] with a message ([Some msg]). *)
Record Transport : Type := mkTransport {
  open_outcome : list Event -> string -> Z -> Z -> option string;
  write_outcome : list Event -> Serial -> list byte -> option string
}.

(** The attributes of an [AKArduinoController]. *)
Record AKArduinoController : Type := mkController {
  port : string;
  baud_rate : Z;
  timeout : Z;
  arduino : option Serial;
  isConnected : bool
}.

(** The controller object together with the events so far. *)
Record World : Type := mkWorld {
  chan : AKArduinoController;
  trace : list Event
}.

(** A method: may change the world, and returns or raises. *)
Definition M (A : Type) : Type := World -> outcome A * World.

Definition ret {A} (a : A) : M A := fun w => (Return a, w).

Definition raise {A} (e : exn) : M A := fun w => (Raise e, w).

Definition mbind {A B} (m : M A) (k : A -> M B) : M B :=
  fun w =>
    match m w with
    | (Return a, w') => k a w'
    | (Raise e, w') => (Raise e, w')
    end.

(** [try: body  except serial.SerialException as e: handler(str(e))].
    Whatever [body] changed before raising stays changed. *)
Definition try_except_SerialException {A} (body : M A) (handler : string -> M A)
  : M A :=
  fun w =>
    match body w with
    | (Raise (SerialException msg), w') => handler msg w'
    | r => r
    end.

Definition get_self : M AKArduinoController := fun w => (Return (chan w), w).

Definition emit (e : Event) : M unit :=
  fun w => (Return tt, mkWorld (chan w) (trace w ++ [e])).

(** [self.arduino = v] *)
Definition set_arduino (v : option Serial) : M unit :=
  fun w =>
    let c := chan w in
    (Return tt,
     mkWorld (mkController (port c) (baud_rate c) (timeout c) v (isConnected c))
             (trace w)).

(** [self.isConnected = b] *)
Definition set_isConnected (b : bool) : M unit :=
  fun w =>
    let c := chan w in
    (Return tt,
     mkWorld (mkController (port c) (baud_rate c) (timeout c) (arduino c) b)
             (trace w)).

(** Truth value of [self.arduino]: [None] is false, a [Serial] object true. *)
Definition truthy (o : option Serial) : bool :=
  match o with
  | Some _ => true
  | None => false
  end.

Definition logging_info (msg : string) : M unit := emit (EvLogInfo msg).
Definition logging_error (msg : string) : M unit := emit (EvLogError msg).
Definition time_sleep (seconds : Z) : M unit := emit (EvSleep seconds).

Declare Scope chan_scope.
Delimit Scope chan_scope with chan.
Notation "x <- m ;; k" := (mbind m (fun x => k))
  (at level 61, m at next level, right associativity) : chan_scope.
Notation "m ;;; k" := (mbind m (fun _ => k))
  (at level 61, right associativity) : chan_scope.

Section WithTransport.

Variable env : Transport.

Local Open Scope chan_scope.

(** [serial.Serial(port, baud_rate, timeout=timeout)] *)
Definition serial_Serial (p : string) (b t : Z) : M Serial :=
  fun w =>
    match open_outcome env (trace w) p b t with
    | None =>
        let h := mkSerial (length (trace w)) p b t in
        (Return h, mkWorld (chan w) (trace w ++ [EvOpened h]))
    | Some msg =>
        (Raise (SerialException msg),
         mkWorld (chan w) (trace w ++ [EvOpenFailed p msg]))
    end.

(** [h.write(payload)] *)
Definition serial_write (h : Serial) (payload : list byte) : M unit :=
  fun w =>
    let w' := mkWorld (chan w) (trace w ++ [EvWrite h payload]) in
    match write_outcome env (trace w) h payload with
    | None => (Return tt, w')
    | Some msg => (Raise (SerialException msg), w')
    end.

(** [h.close()] *)
Definition serial_close (h : Serial) : M unit := emit (EvClose h).

(** [__init__], lines 133-138. *)
Definition init (p : string) (b t : Z) : AKArduinoController :=
  mkController p b t None false.

(** [ahmdConnect], lines 140-151. *)
Definition ahmdConnect : M bool :=
  try_except_SerialException
    (self <- get_self ;;
     h <- serial_Serial (port self) (baud_rate self) (timeout self) ;;
     set_arduino (Some h) ;;;
     time_sleep 2 ;;;
     set_isConnected true ;;;
     self <- get_self ;;
     logging_info ("AK Arduino connected on " ++ port self) ;;;
     ret true)
    (fun e =>
       logging_error ("AHMD Arduino connection failed: " ++ e) ;;;
       set_isConnected false ;;;
       ret false).

(** [akSendData], lines 153-163. *)
Definition akSendData (data : PyValue) : M bool :=
  emit (EvCall_akSendData data) ;;;
  self <- get_self ;;
  if negb (isConnected self) || negb (truthy (arduino self)) then ret false
  else
    try_except_SerialException
      (self <- get_self ;;
       match arduino self with
       | Some h => serial_write h (bytes_utf8 (py_str data))
       | None => raise AttributeError
       end ;;;
       ret true)
      (fun e =>
         logging_error ("AK data transmission failed: " ++ e) ;;;
         ret false).

(** [ahmdDisconnect], lines 165-170. *)
Definition ahmdDisconnect : M unit :=
  self <- get_self ;;
  if truthy (arduino self) && isConnected self then
    match arduino self with
    | Some h => serial_close h
    | None => raise AttributeError
    end ;;;
    set_isConnected false ;;;
    logging_info "AHMD Arduino disconnected"
  else ret tt.

(** The worlds a program can get to: construct a controller, then call
    its methods in any order. *)
Inductive reachable : World -> Prop :=
| reach_init p b t tr : reachable (mkWorld (init p b t) tr)
| reach_connect w : reachable w -> reachable (snd (ahmdConnect w))
| reach_send w data : reachable w -> reachable (snd (akSendData data w))
| reach_disconnect w : reachable w -> reachable (snd (ahmdDisconnect w)).

End WithTransport.

(** *** Vocabulary of the specification *)

Inductive ConnectionState : Type := Disconnected | Connected | Failed.

(** How the controller's flag carries the specification's three states:
    [Connected] is the flag set; [Disconnected] and [Failed], the two
    states in which nothing is sent, are both the flag cleared. *)
Definition in_state (c : AKArduinoController) (s : ConnectionState) : Prop :=
  match s with
  | Connected => isConnected c = true
  | Disconnected | Failed => isConnected c = false
  end.

(** The object a successful [serial.Serial(...)] call returns in [w]. *)
Definition opened_in (w : World) : Serial :=
  mkSerial (length (trace w)) (port (chan w)) (baud_rate (chan w))
           (timeout (chan w)).

(** Whenever the flag is set there is a port object. *)
Definition has_port_when_connected (c : AKArduinoController) : Prop :=
  isConnected c = true -> exists h, arduino c = Some h.

(** The events of [w'] that were not yet in [w]. *)
Definition events_since (w w' : World) : list Event :=
  skipn (length (trace w)) (trace w').

(** The arguments of the [akSendData] calls among some events. *)
Fixpoint send_calls (evs : list Event) : list PyValue :=
  match evs with
  | [] => []
  | EvCall_akSendData d :: evs' => d :: send_calls evs'
  | _ :: evs' => send_calls evs'
  end.

(** The payloads written to the port among some events. *)
Fixpoint writes (evs : list Event) : list (list byte) :=
  match evs with
  | [] => []
  | EvWrite _ p :: evs' => p :: writes evs'
  | _ :: evs' => writes evs'
  end.

(** The byte of the decimal digit character, ["0"] to ["9"]. *)
Definition ascii_digit (n : Z) : byte :=
  match n with
  | 0 => "0" | 1 => "1" | 2 => "2" | 3 => "3" | 4 => "4"
  | 5 => "5" | 6 => "6" | 7 => "7" | 8 => "8" | 9 => "9"
  | _ => "?"
  end%byte.

End Channel.

Import Channel.

(* ------------------------------------------------------------------ *)
(** ** AHMDGestureController: one frame *)

Module Loop.

Section WithCollaborators.

(** Images, and the floating-point numbers MediaPipe reports, are kept
    abstract; so are the library calls that work on them. *)
Variable Frame : Type.
Variable PyFloat : Type.

(** [cv2.flip(frame, code)] *)
Variable cv2_flip : Frame -> Z -> Frame.
(** [self.hands.process(cv2.cvtColor(image, COLOR_BGR2RGB)).multi_hand_landmarks],
    with [None] read as the empty list (both are false in [if]): per hand,
    the normalised [(x, y)] of each landmark. *)
Variable multi_hand_landmarks : Frame -> list (list (PyFloat * PyFloat)).
(** [image.shape], as [(h, w)]. *)
Variable shape : Frame -> Z * Z.
(** [int(v * n)] for a float [v] and an integer [n]. *)
Variable int_of_scaled : PyFloat -> Z -> Z.
(** [ahmdDrawLandmarks(image, hand_landmarks)], which draws on the image. *)
Variable ahmdDrawLandmarks :
  Frame -> list (PyFloat * PyFloat) -> Frame.

(** [enumerate(l)], counting from [start]. *)
Fixpoint enumerate_from {A} (start : Z) (l : list A) : list (Z * A) :=
  match l with
  | [] => []
  | a :: l' => (start, a) :: enumerate_from (start + 1) l'
  end.

(** Lines 88-93: the pixel landmarks of one detected hand. *)
Definition pixel_landmarks (image : Frame) (hand : list (PyFloat * PyFloat))
  : list Landmark :=
  let '(h, w) := shape image in
  map (fun '(id, (x, y)) => (id, int_of_scaled x w, int_of_scaled y h))
      (enumerate_from 0 hand).

(** Lines 87-97: the loop over the detected hands; the image is drawn on
    after each hand is converted. *)
Fixpoint detect_loop (image : Frame) (hands : list (list (PyFloat * PyFloat)))
         (all_landmarks : list (list Landmark))
  : Frame * list (list Landmark) :=
  match hands with
  | [] => (image, all_landmarks)
  | hand :: hands' =>
      let landmarks := pixel_landmarks image hand in
      detect_loop (ahmdDrawLandmarks image hand) hands'
                  (all_landmarks ++ [landmarks])
  end.

(** [akDetectHands], lines 80-99: the image as drawn on, and
    [all_landmarks]. *)
Definition akDetectHands (image : Frame) : Frame * list (list Landmark) :=
  detect_loop image (multi_hand_landmarks image) [].

Variable env : Transport.

Local Open Scope chan_scope.

(** A computation that only returns or raises, run as a method. *)
Definition lift {A} (o : outcome A) : M A := fun w => (o, w).

(** Truth value of a list: non-empty. *)
Definition nonempty {A} (l : list A) : bool :=
  match l with
  | [] => false
  | _ :: _ => true
  end.

(** [ahmdProcessFrame], lines 218-230. *)
Definition ahmdProcessFrame (frame : Frame) : M (Frame * Z) :=
  let frame := cv2_flip frame 1 in
  let '(frame, all_landmarks) := akDetectHands frame in
  if nonempty all_landmarks then
    finger_count <- lift (bind (getitem all_landmarks 0) akCountFingers) ;;
    self_arduino <- get_self ;;
    (if isConnected self_arduino
     then akSendData env (PyInt finger_count) ;;; ret tt
     else ret tt) ;;;
    ret (frame, finger_count)
  else ret (frame, 0).

End WithCollaborators.

End Loop.

Import Loop.

(* ------------------------------------------------------------------ *)
(** ** The thumb rule in the specification's words *)

Module ThumbSpec.

(** The thumb's classification is the first entry of [fingers]. *)
Definition thumb_classified_extended (hand : list Landmark) : Prop :=
  exists rest, akFingers hand = Return (1 :: rest).

(** The horizontal coordinate [tip] lies further from the centre [c] than
    the horizontal coordinate [joint] does. *)
Definition further_from (c tip joint : Z) : Prop :=
  Z.abs (joint - c) < Z.abs (tip - c).

(** Sum of the horizontal coordinates of a hand's landmarks. *)
Definition sum_x (hand : list Landmark) : Z :=
  fold_right (fun lm acc => snd (fst lm) + acc) 0 hand.

(** The thumb tip lies further from the hand's centre than its adjacent
    joint, the centre being the mean position of the 21 landmarks.  Both
    sides are scaled by 21 so that the mean needs no division. *)
Definition thumb_further_from_centroid (hand : list Landmark) : Prop :=
  further_from (sum_x hand) (21 * xcoord hand 4) (21 * xcoord hand 3).

(** The same with the wrist (landmark 0) as the hand's centre. *)
Definition thumb_further_from_wrist (hand : list Landmark) : Prop :=
  further_from (xcoord hand 0) (xcoord hand 4) (xcoord hand 3).

(** The same with the knuckle of the middle finger (landmark 9), the
    middle of the palm's upper edge, as the hand's centre. *)
Definition thumb_further_from_palm (hand : list Landmark) : Prop :=
  further_from (xcoord hand 9) (xcoord hand 4) (xcoord hand 3).

(** The image of a hand in a frame of width [w] flipped left to right. *)
Definition mirror (w : Z) (hand : list Landmark) : list Landmark :=
  map (fun '(id, x, y) => (id, w - x, y)) hand.

(** An open hand, fingers up, thumb pointing to the left of the image:
    wrist at the bottom, thumb landmarks 1-4 going left, the four fingers
    going up. *)
Definition open_hand_thumb_left : list Landmark :=
  [ (0, 300, 400);
    (1, 260, 380); (2, 225, 350); (3, 200, 320); (4, 170, 300);
    (5, 270, 280); (6, 265, 230); (7, 262, 200); (8, 260, 170);
    (9, 300, 275); (10, 300, 220); (11, 300, 185); (12, 300, 150);
    (13, 328, 282); (14, 332, 232); (15, 335, 200); (16, 337, 172);
    (17, 352, 295); (18, 360, 255); (19, 365, 230); (20, 369, 208) ].

(** The same hand with everything moved that the counter does not read:
    every id, the vertical position of landmarks 3 and 4, the horizontal
    position of all others, and both coordinates of the remaining ones. *)
Definition moved_elsewhere (hand : list Landmark) : list Landmark :=
  map (fun '(id, x, y) =>
         if (id =? 3) || (id =? 4) then (id + 100, x, y + 7)
         else if Z.even id && (6 <=? id) then (id + 100, x + 11, y)
         else (id + 100, x + 11, y + 7))
      hand.

End ThumbSpec.

Import ThumbSpec.

(* ------------------------------------------------------------------ *)
(** ** Concrete devices and worlds *)

Module Scenario.

(** A device that opens and takes every write. *)
Definition device_present : Transport :=
  mkTransport (fun _ _ _ _ => None) (fun _ _ _ => None).

(** A device that opens but fails every write. *)
Definition device_unplugged_later : Transport :=
  mkTransport (fun _ _ _ _ => None)
              (fun _ _ _ => Some "write failed"%string).

(** No device on the port. *)
Definition device_absent : Transport :=
  mkTransport (fun _ _ _ _ => Some "could not open port"%string)
              (fun _ _ _ => None).

(** A controller as constructed by the gesture controller's defaults,
    nothing having happened yet. *)
Definition fresh : World := mkWorld (init "COM3" 9600 2) [].

(** The world after a first, successful [ahmdConnect]. *)
Definition connected (env : Transport) : World := snd (ahmdConnect env fresh).

(** A hand with thumb, index and middle finger extended: the open hand
    mirrored, with ring and little finger folded down. *)
Definition three_fingers : list Landmark :=
  [ (0, 340, 400);
    (1, 380, 380); (2, 415, 350); (3, 440, 320); (4, 470, 300);
    (5, 370, 280); (6, 375, 230); (7, 378, 200); (8, 380, 170);
    (9, 340, 275); (10, 340, 220); (11, 340, 185); (12, 340, 150);
    (13, 312, 282); (14, 308, 250); (15, 310, 275); (16, 314, 290);
    (17, 288, 295); (18, 282, 270); (19, 286, 290); (20, 290, 300) ].

(** A stand-in for the camera and MediaPipe: a frame is the list of hands
    visible in it, already in pixels; flipping and drawing leave it alone. *)
Definition TestFrame : Type := list (list (Z * Z)).

Definition process_test_frame (env : Transport) : TestFrame -> M (TestFrame * Z) :=
  ahmdProcessFrame TestFrame Z (fun f _ => f) (fun f => f)
                   (fun _ => (480, 640)) (fun v _ => v) (fun f _ => f) env.

(** A frame showing [three_fingers], and behind it the open hand. *)
Definition frame_three_fingers : TestFrame :=
  [ map (fun '(_, x, y) => (x, y)) three_fingers;
    map (fun '(_, x, y) => (x, y)) open_hand_thumb_left ].

End Scenario.

Import Scenario.

(* ------------------------------------------------------------------ *)
(** ** Moving a hand in the image *)

Module Geometry.

(** The hand shifted by [(dx, dy)] pixels. *)
Definition translate (dx dy : Z) (hand : list Landmark) : list Landmark :=
  map (fun '(id, x, y) => (id, x + dx, y + dy)) hand.

(** The hand with every coordinate multiplied by [k]. *)
Definition scale (k : Z) (hand : list Landmark) : list Landmark :=
  map (fun '(id, x, y) => (id, k * x, k * y)) hand.

End Geometry.

Import Geometry.

(* ------------------------------------------------------------------ *)
(** ** Sequences of calls on an AKArduinoController *)

Module Calls.

Inductive Call : Type :=
| CallConnect
| CallSend (data : PyValue)
| CallDisconnect.

(** One method call; the returned value is dropped, the world kept. *)
Definition run_call (env : Transport) (c : Call) (w : World) : World :=
  match c with
  | CallConnect => snd (ahmdConnect env w)
  | CallSend data => snd (akSendData env data w)
  | CallDisconnect => snd (ahmdDisconnect w)
  end.

(** The calls of a list, first to last. *)
Definition run_calls (env : Transport) (calls : list Call) (w : World) : World :=
  fold_left (fun w c => run_call env c w) calls w.

(** Every write in the trace comes after the opening of the same port
    object and the 2-second sleep that follows the opening. *)
Definition writes_after_settle (tr : list Event) : Prop :=
  forall (i : nat) (h : Serial) (payload : list byte),
    nth_error tr i = Some (EvWrite h payload) ->
    exists j : nat,
      (S j < i)%nat
      /\ nth_error tr j = Some (EvOpened h)
      /\ nth_error tr (S j) = Some (EvSleep 2).

(** No write goes to a port object that was closed before. *)
Definition no_write_after_close (tr : list Event) : Prop :=
  forall (i j : nat) (h : Serial) (payload : list byte),
    nth_error tr i = Some (EvClose h) ->
    nth_error tr j = Some (EvWrite h payload) ->
    (j < i)%nat.

(** The port objects closed among some events. *)
Fixpoint closes (evs : list Event) : list Serial :=
  match evs with
  | [] => []
  | EvClose h :: evs' => h :: closes evs'
  | _ :: evs' => closes evs'
  end.

(** The port objects opened among some events. *)
Fixpoint opens (evs : list Event) : list Serial :=
  match evs with
  | [] => []
  | EvOpened h :: evs' => h :: opens evs'
  | _ :: evs' => opens evs'
  end.

(** Events that are neither a write nor a closing. *)
Definition quiet (evs : list Event) : Prop :=
  forall (k : nat) (e : Event),
    nth_error evs k = Some e ->
    (forall h p, e <> EvWrite h p) /\ (forall h, e <> EvClose h).

(** What every sequence of calls keeps true of controller and trace: the
    two properties above; a port object is numbered by the place of its
    opening, and closed only later; and while the flag is set, the current
    port object has been opened, slept after, and not closed. *)
Definition trace_discipline (w : World) : Prop :=
  writes_after_settle (trace w)
  /\ no_write_after_close (trace w)
  /\ (forall (i : nat) (h : Serial),
        nth_error (trace w) i = Some (EvClose h) -> (ser_id h < i)%nat)
  /\ (forall h : Serial,
        arduino (chan w) = Some h -> (ser_id h < length (trace w))%nat)
  /\ (forall h : Serial,
        isConnected (chan w) = true -> arduino (chan w) = Some h ->
        (forall i : nat, nth_error (trace w) i <> Some (EvClose h))
        /\ nth_error (trace w) (ser_id h) = Some (EvOpened h)
        /\ nth_error (trace w) (S (ser_id h)) = Some (EvSleep 2)).

(** A device on which the first opening succeeds and every later one is
    refused; writes succeed. *)
Definition device_opens_once : Transport :=
  mkTransport (fun tr _ _ _ =>
                 match tr with
                 | [] => None
                 | _ :: _ => Some "port busy"%string
                 end)
              (fun _ _ _ => None).

End Calls.

Import Calls.

(* ------------------------------------------------------------------ *)
(** ** AKConfigManager and the command-line overrides *)

Module Config.

(** The values a JSON configuration holds.  A float is kept as the text
    Python prints for it, which is also what [json.dump] writes. *)
Inductive Value : Type :=
| VNone
| VBool (b : bool)
| VInt (n : Z)
| VFloat (repr : string)
| VStr (s : string).

(** A [dict] with string keys: its items in insertion order. *)
Definition dict : Type := list (string * Value).

(** The item stored under [k], if any. *)
Fixpoint dict_get (d : dict) (k : string) : option Value :=
  match d with
  | [] => None
  | (k', v) :: d' => if String.eqb k k' then Some v else dict_get d' k
  end.

(** [d[k] = v]: an existing key keeps its place, a new one goes last. *)
Fixpoint dict_set (d : dict) (k : string) (v : Value) : dict :=
  match d with
  | [] => [(k, v)]
  | (k', v') :: d' =>
      if String.eqb k k' then (k', v) :: d' else (k', v') :: dict_set d' k v
  end.

(** [{**a, **b}], [b] given by its items. *)
Definition dict_merge (a : dict) (b : list (string * Value)) : dict :=
  fold_left (fun acc kv => dict_set acc (fst kv) (snd kv)) b a.

(** The last value a list of members gives to [k]. *)
Definition last_binding (members : list (string * Value)) (k : string)
  : option Value :=
  dict_get (rev members) k.

(** What a file holds, as [json.load] sees it: a JSON object with its
    members in file order, some other JSON value, or no JSON at all. *)
Inductive FileContent : Type :=
| JsonObject (members : list (string * Value))
| JsonOther
| NotJson.

(** The files that exist, by path. *)
Definition Files : Type := string -> option FileContent.

(** The file system after writing [c] to [path]. *)
Definition write_file (fs : Files) (path : string) (c : FileContent) : Files :=
  fun p => if String.eqb p path then Some c else fs p.

(** The exceptions that leave the configuration code. *)
Inductive ConfigExn : Type :=
| JSONDecodeError
| TypeError
| AttributeError_config.

Inductive result (E A : Type) : Type :=
| Ok (a : A)
| Exc (e : E).
Arguments Ok {E A} a.
Arguments Exc {E A} e.

(** [self.akDefaultConfig], lines 34-43. *)
Definition akDefaultConfig : dict :=
  [ ("serial_port", VStr "COM3");
    ("baud_rate", VInt 9600);
    ("camera_index", VInt 0);
    ("window_name", VStr "AK Hand Gesture Controller");
    ("min_detection_confidence", VFloat "0.5");
    ("min_tracking_confidence", VFloat "0.5");
    ("serial_timeout", VInt 2);
    ("debug_mode", VBool false) ]%string.

(** An [AKConfigManager]: [self.config] is unset while [__init__] is still
    loading. *)
Record AKConfigManager : Type := mkConfigManager {
  config_file : string;
  config : option dict
}.

(** Truth value of an optional dict argument: [None] and [{}] are false. *)
Definition dict_truthy (o : option dict) : bool :=
  match o with
  | Some (_ :: _) => true
  | _ => false
  end.

(** [akSaveConfig], lines 56-60: [config or self.config] is written as a
    JSON object.  Writing is taken to succeed: the files here have no
    directories and no permissions, and an [open(..., 'w')] that raises
    (missing directory, empty path, read-only file) is outside the model. *)
Definition akSaveConfig (self : AKConfigManager) (arg : option dict)
           (fs : Files) : result ConfigExn unit * Files :=
  let config_to_save := if dict_truthy arg then arg else config self in
  match config_to_save with
  | Some d => (Ok tt, write_file fs (config_file self) (JsonObject d))
  | None => (Exc AttributeError_config, fs)
  end.

(** [json.load] of an object: a dict of its members, a repeated key
    keeping its first place and its last value. *)
Definition json_dict (members : list (string * Value)) : dict :=
  dict_merge [] members.

(** [ahmdLoadConfig], lines 46-54.  Only a missing file is handled; a file
    that is no JSON, or no JSON object, raises. *)
Definition ahmdLoadConfig (self : AKConfigManager) (fs : Files)
  : result ConfigExn dict * Files :=
  match fs (config_file self) with
  | Some (JsonObject members) =>
      (Ok (dict_merge akDefaultConfig (json_dict members)), fs)
  | Some JsonOther => (Exc TypeError, fs)
  | Some NotJson => (Exc JSONDecodeError, fs)
  | None =>
      match akSaveConfig self (Some akDefaultConfig) fs with
      | (Ok _, fs') => (Ok akDefaultConfig, fs')
      | (Exc e, fs') => (Exc e, fs')
      end
  end.

(** [__init__], lines 32-44. *)
Definition new_config_manager (file : string) (fs : Files)
  : result ConfigExn AKConfigManager * Files :=
  match ahmdLoadConfig (mkConfigManager file None) fs with
  | (Ok d, fs') => (Ok (mkConfigManager file (Some d)), fs')
  | (Exc e, fs') => (Exc e, fs')
  end.

(** [ahmdGetConfig], lines 62-64: [dict.get], so [None] for a missing key. *)
Definition ahmdGetConfig (self : AKConfigManager) (key : string) : Value :=
  match config self with
  | Some d =>
      match dict_get d key with
      | Some v => v
      | None => VNone
      end
  | None => VNone
  end.

(** The parsed command line: [--config] (with its default when absent),
    [--port], [--camera], [--debug]. *)
Record Args : Type := mkArgs {
  arg_config : string;
  arg_port : option string;
  arg_camera : option Z;
  arg_debug : bool
}.

(** Truth value of [args.port]: [None] and the empty string are false. *)
Definition port_given (o : option string) : option string :=
  match o with
  | Some EmptyString => None
  | other => other
  end.

(** The three assignments of [akApplyCommandOverrides], lines 300-305. *)
Definition overridden (args : Args) (d : dict) : dict :=
  let d1 := match port_given (arg_port args) with
            | Some p => dict_set d "serial_port" (VStr p)
            | None => d
            end in
  let d2 := match arg_camera args with
            | Some c => dict_set d1 "camera_index" (VInt c)
            | None => d1
            end in
  if arg_debug args then dict_set d2 "debug_mode" (VBool true) else d2.

(** [akApplyCommandOverrides], lines 298-307. *)
Definition akApplyCommandOverrides (cm : AKConfigManager) (args : Args)
           (fs : Files) : result ConfigExn AKConfigManager * Files :=
  match config cm with
  | None => (Exc AttributeError_config, fs)
  | Some d =>
      let cm' := mkConfigManager (config_file cm) (Some (overridden args d)) in
      match akSaveConfig cm' None fs with
      | (Ok _, fs') => (Ok cm', fs')
      | (Exc e, fs') => (Exc e, fs')
      end
  end.

(** The configuration part of [ahmdMain], lines 312-315. *)
Definition startup_config (args : Args) (fs : Files)
  : result ConfigExn AKConfigManager * Files :=
  match new_config_manager (arg_config args) fs with
  | (Ok cm, fs') => akApplyCommandOverrides cm args fs'
  | (Exc e, fs') => (Exc e, fs')
  end.

(** [str(v)] *)
Definition value_str (v : Value) : string :=
  match v with
  | VNone => "None"
  | VBool true => "True"
  | VBool false => "False"
  | VInt n => py_str (PyInt n)
  | VFloat repr => repr
  | VStr s => s
  end.

(** No file at all. *)
Definition no_files : Files := fun _ => None.

End Config.

Import Config.

(* ------------------------------------------------------------------ *)
(** ** AHMDGestureController: camera, main loop, shutdown *)

Module App.

(** What can be raised inside the main loop, by class: the two the loop
    names, and [SystemExit] for what is no [Exception]. *)
Inductive LoopExn : Type :=
| KeyboardInterrupt
| OtherException (msg : string)
| SystemExit.

(** [str(e)] for the exceptions of the channel and detector model, all of
    them subclasses of [Exception]. *)
Definition exn_text (e : exn) : string :=
  match e with
  | IndexError => "list index out of range"
  | AttributeError => "'NoneType' object has no attribute 'write'"
  | SerialException msg => msg
  end.

(** What [cv2.VideoCapture(index)] does: gives an opened capture, gives a
    capture that is not opened, or raises. *)
Inductive CameraOpen : Type :=
| CamOpened
| CamNotOpened
| CamRaises (msg : string).

(** What the two library calls of the shutdown do: both go through, or
    [self.camera.release()] raises, or [cv2.destroyAllWindows()] raises. *)
Inductive CleanupFault : Type :=
| CleanupFine
| ReleaseRaises (e : LoopExn)
| TeardownRaises (e : LoopExn).

(** How the main loop ends, as far as the ticks given tell. *)
Inductive RunEnd : Type :=
| InLoop
| Returned
| Propagated (e : LoopExn).

(** [key & 0xFF == 27] *)
Definition esc_pressed (key : Z) : bool := Z.land key 255 =? 27.

Section WithCollaborators.

Variable Frame : Type.
Variable PyFloat : Type.
Variable cv2_flip : Frame -> Z -> Frame.
Variable multi_hand_landmarks : Frame -> list (list (PyFloat * PyFloat)).
Variable shape : Frame -> Z * Z.
Variable int_of_scaled : PyFloat -> Z -> Z.
Variable ahmdDrawLandmarks : Frame -> list (PyFloat * PyFloat) -> Frame.
(** [cv2.putText(frame, text, org, ...)]; font, scale, colour and thickness
    are constants of the source and left out. *)
Variable cv2_putText : Frame -> string -> Z * Z -> Frame.
Variable env : Transport.
(** The configuration the controller was built with. *)
Variable cfg : AKConfigManager.
(** How the library calls of the shutdown behave in this run. *)
Variable cleanup_fault : CleanupFault.

(** What one turn of the loop meets from outside.  The camera gives no
    frame, or reading raises; with a frame read, flipping or detection
    raises before anything is counted ([DetectRaises]); or the frame is
    processed and then drawing the overlay or [cv2.imshow] raises
    ([ShowRaises]); or the frame is shown and the key poll gives a key
    ([Shows]) or raises ([KeyRaises]).  [now] is the clock's text for the
    overlay. *)
Inductive Tick : Type :=
| ReadFails
| ReadRaises (e : LoopExn)
| DetectRaises (e : LoopExn)
| ShowRaises (frame : Frame) (now : string) (e : LoopExn)
| Shows (frame : Frame) (now : string) (key : Z)
| KeyRaises (frame : Frame) (now : string) (e : LoopExn).

(** What the controller does to camera, windows, console and log. *)
Inductive UiEvent : Type :=
| UiVideoCapture (index : Value)
| UiRelease
| UiDestroyAllWindows
| UiImshow (window : Value) (frame : Frame)
| UiPrint (text : string)
| UiLogInfo (msg : string)
| UiLogError (msg : string).

(** The attributes of an [AHMDGestureController] that change:
    [self.arduino] with the serial events, [self.camera] (the capture
    object, with whether it is opened), [self.running]; and the events on
    the user's side. *)
Record Gesture : Type := mkGesture {
  arduino_world : World;
  camera : option bool;
  running : bool;
  ui : list UiEvent
}.

Definition ui_emit (e : UiEvent) (g : Gesture) : Gesture :=
  mkGesture (arduino_world g) (camera g) (running g) (ui g ++ [e]).

(** [__init__], lines 176-190, the serial settings being those read from
    the configuration. *)
Definition new_gesture (p : string) (b t : Z) : Gesture :=
  mkGesture (mkWorld (init p b t) []) None false [].

(** [ahmdInitializeCamera], lines 197-208. *)
Definition ahmdInitializeCamera (cam : CameraOpen) (g : Gesture)
  : bool * Gesture :=
  let g1 := ui_emit (UiVideoCapture (ahmdGetConfig cfg "camera_index")) g in
  match cam with
  | CamRaises msg =>
      (false, ui_emit (UiLogError ("AHMD camera error: " ++ msg)) g1)
  | CamNotOpened =>
      let g2 := mkGesture (arduino_world g1) (Some false) (running g1) (ui g1) in
      (false, ui_emit (UiLogError "AHMD camera initialization failed") g2)
  | CamOpened =>
      let g2 := mkGesture (arduino_world g1) (Some true) (running g1) (ui g1) in
      (true, ui_emit (UiLogInfo "AK camera initialized successfully") g2)
  end.

(** [akCleanupResources], lines 210-216.  An exception from
    [release()], from [destroyAllWindows()] or from [ahmdDisconnect] leaves
    the method at that point, the rest of it not being done. *)
Definition akCleanupResources (g : Gesture) : option LoopExn * Gesture :=
  match camera g, cleanup_fault with
  | Some _, ReleaseRaises e => (Some e, g)
  | _, _ =>
      let g1 := match camera g with
                | Some _ => ui_emit UiRelease g
                | None => g
                end in
      match cleanup_fault with
      | TeardownRaises e => (Some e, g1)
      | _ =>
          let g2 := ui_emit UiDestroyAllWindows g1 in
          match ahmdDisconnect (arduino_world g2) with
          | (Return _, w') =>
              (None,
               ui_emit (UiLogInfo "AK cleanup completed")
                       (mkGesture w' (camera g2) (running g2) (ui g2)))
          | (Raise e, w') =>
              (Some (OtherException (exn_text e)),
               mkGesture w' (camera g2) (running g2) (ui g2))
          end
      end
  end.

(** [akDrawInterface], lines 232-245. *)
Definition akDrawInterface (frame : Frame) (finger_count : Z) (now : string)
           (g : Gesture) : Frame :=
  let frame1 :=
    cv2_putText frame ("AK Fingers: " ++ py_str (PyInt finger_count)) (20, 50) in
  let frame2 := cv2_putText frame1 ("AHMD Time: " ++ now) (20, 90) in
  let connection_status :=
    if isConnected (chan (arduino_world g))
    then "AK Connected"%string else "AHMD Disconnected"%string in
  cv2_putText frame2 ("Arduino: " ++ connection_status) (20, 130).

(** How one turn of the loop body ends. *)
Inductive Step : Type :=
| Continue
| Break
| Throw (e : LoopExn).

(** Line 268: [self.ahmdProcessFrame(frame)], giving the frame and the
    count, or what it raises. *)
Definition process_in (frame : Frame) (g : Gesture)
  : (LoopExn + Frame * Z) * Gesture :=
  match ahmdProcessFrame Frame PyFloat cv2_flip multi_hand_landmarks shape
                         int_of_scaled ahmdDrawLandmarks env frame
                         (arduino_world g) with
  | (Raise e, w') =>
      (inl (OtherException (exn_text e)),
       mkGesture w' (camera g) (running g) (ui g))
  | (Return processed, w') =>
      (inr processed, mkGesture w' (camera g) (running g) (ui g))
  end.

(** Lines 269-271: draw the overlay and show the frame. *)
Definition draw_and_show (processed : Frame * Z) (now : string) (g : Gesture)
  : Gesture :=
  ui_emit (UiImshow (ahmdGetConfig cfg "window_name")
                    (akDrawInterface (fst processed) (snd processed) now g))
          g.

(** Lines 263-275: the body of [while self.running]. *)
Definition loop_body (t : Tick) (g : Gesture) : Step * Gesture :=
  match t with
  | ReadFails =>
      (Break, ui_emit (UiLogError "AHMD failed to read from camera") g)
  | ReadRaises e => (Throw e, g)
  | DetectRaises e => (Throw e, g)
  | ShowRaises frame now e =>
      match process_in frame g with
      | (inl e', g') => (Throw e', g')
      | (inr _, g') => (Throw e, g')
      end
  | Shows frame now key =>
      match process_in frame g with
      | (inl e, g') => (Throw e, g')
      | (inr processed, g') =>
          (if esc_pressed key then Break else Continue,
           draw_and_show processed now g')
      end
  | KeyRaises frame now e =>
      match process_in frame g with
      | (inl e', g') => (Throw e', g')
      | (inr processed, g') => (Throw e, draw_and_show processed now g')
      end
  end.

(** How the [while] loop stands after the ticks given. *)
Inductive LoopEnd : Type :=
| Pending
| Finished
| Thrown (e : LoopExn).

(** Lines 262-275: [while self.running: ...]. *)
Fixpoint while_running (ticks : list Tick) (g : Gesture) : LoopEnd * Gesture :=
  if negb (running g) then (Finished, g)
  else
    match ticks with
    | [] => (Pending, g)
    | t :: ticks' =>
        match loop_body t g with
        | (Continue, g') => while_running ticks' g'
        | (Break, g') => (Finished, g')
        | (Throw e, g') => (Thrown e, g')
        end
    end.

(** The [finally] clause, after which [pending], if any, is re-raised. *)
Definition finally_cleanup (pending : option LoopExn) (g : Gesture)
  : RunEnd * Gesture :=
  match akCleanupResources g with
  | (Some e, g') => (Propagated e, g')
  | (None, g') =>
      match pending with
      | Some e => (Propagated e, g')
      | None => (Returned, g')
      end
  end.

(** [ahmdRunMainLoop], lines 247-282. *)
Definition ahmdRunMainLoop (cam : CameraOpen) (ticks : list Tick) (g : Gesture)
  : RunEnd * Gesture :=
  match ahmdInitializeCamera cam g with
  | (false, g1) =>
      (Returned, ui_emit (UiPrint "AK Error: Could not initialize camera") g1)
  | (true, g1) =>
      match ahmdConnect env (arduino_world g1) with
      | (Raise e, w') =>
          (Propagated (OtherException (exn_text e)),
           mkGesture w' (camera g1) (running g1) (ui g1))
      | (Return connected_now, w') =>
          let g2 := mkGesture w' (camera g1) (running g1) (ui g1) in
          let g3 :=
            if connected_now then g2
            else
              ui_emit (UiPrint "AK continuing in camera-only mode...")
                (ui_emit
                   (UiPrint ("AHMD Warning: Could not connect to Arduino on "
                             ++ value_str (ahmdGetConfig cfg "serial_port")))
                   g2) in
          let g4 := mkGesture (arduino_world g3) (camera g3) true (ui g3) in
          let g5 :=
            ui_emit (UiPrint "AK Press ESC to exit")
              (ui_emit (UiPrint "AHMD Hand Gesture Controller started!") g4) in
          match while_running ticks g5 with
          | (Pending, g6) => (InLoop, g6)
          | (Finished, g6) => finally_cleanup None g6
          | (Thrown KeyboardInterrupt, g6) =>
              finally_cleanup None
                (ui_emit (UiPrint (String "010"%char "AHMD interrupted by user"))
                         g6)
          | (Thrown (OtherException msg), g6) =>
              finally_cleanup None
                (ui_emit (UiLogError ("AK runtime error: " ++ msg)) g6)
          | (Thrown SystemExit, g6) => finally_cleanup (Some SystemExit) g6
          end
      end
  end.

(** Whether a tick makes the loop leave. *)
Definition stops (t : Tick) : bool :=
  match t with
  | Shows _ _ key => esc_pressed key
  | _ => true
  end.

(** Whether a tick brings a frame that gets shown. *)
Definition shows_frame (t : Tick) : bool :=
  match t with
  | Shows _ _ _ => true
  | KeyRaises _ _ _ => true
  | _ => false
  end.

(** The ticks up to and including the first that stops the loop. *)
Fixpoint until_stop (ticks : list Tick) : list Tick :=
  match ticks with
  | [] => []
  | t :: ticks' => if stops t then [t] else t :: until_stop ticks'
  end.

(** The frames shown among some events. *)
Fixpoint shown_frames (evs : list UiEvent) : list Frame :=
  match evs with
  | [] => []
  | UiImshow _ f :: evs' => f :: shown_frames evs'
  | _ :: evs' => shown_frames evs'
  end.

(** How often the camera was released among some events. *)
Fixpoint releases (evs : list UiEvent) : nat :=
  match evs with
  | [] => 0
  | UiRelease :: evs' => S (releases evs')
  | _ :: evs' => releases evs'
  end.

(** How often the windows were destroyed among some events. *)
Fixpoint window_teardowns (evs : list UiEvent) : nat :=
  match evs with
  | [] => 0
  | UiDestroyAllWindows :: evs' => S (window_teardowns evs')
  | _ :: evs' => window_teardowns evs'
  end.

(** How the [while] loop stands after some ticks, read off the ticks alone. *)
Fixpoint loop_end_of (ticks : list Tick) : LoopEnd :=
  match ticks with
  | [] => Pending
  | ReadFails :: _ => Finished
  | ReadRaises e :: _ => Thrown e
  | DetectRaises e :: _ => Thrown e
  | ShowRaises _ _ e :: _ => Thrown e
  | Shows _ _ key :: ticks' =>
      if esc_pressed key then Finished else loop_end_of ticks'
  | KeyRaises _ _ e :: _ => Thrown e
  end.

(** How the run ends for a given end of the loop: still in the loop; or,
    the loop left, with what the shutdown raises if it raises; or else
    normally, unless what the loop threw is no [Exception] and goes on
    after the shutdown. *)
Definition run_end_of (l : LoopEnd) : RunEnd :=
  match l with
  | Pending => InLoop
  | _ =>
      match cleanup_fault with
      | ReleaseRaises e => Propagated e
      | TeardownRaises e => Propagated e
      | CleanupFine =>
          match l with
          | Thrown SystemExit => Propagated SystemExit
          | _ => Returned
          end
      end
  end.

(** The first hand found in a frame, after the flip. *)
Definition first_hand (frame : Frame) : option (list Landmark) :=
  hd_error
    (snd (akDetectHands Frame PyFloat multi_hand_landmarks shape int_of_scaled
                        ahmdDrawLandmarks (cv2_flip frame 1))).

(** The finger count of a hand, as a number. *)
Definition count_of (hand : list Landmark) : Z :=
  match akCountFingers hand with
  | Return n => n
  | Raise _ => 0
  end.

(** The values to be sent for some ticks: for each frame that gets
    processed and shows a hand, the count of its first hand. *)
Fixpoint counts_to_send (ticks : list Tick) : list PyValue :=
  match ticks with
  | [] => []
  | Shows frame _ _ :: ticks' | KeyRaises frame _ _ :: ticks'
  | ShowRaises frame _ _ :: ticks' =>
      match first_hand frame with
      | Some hand => PyInt (count_of hand) :: counts_to_send ticks'
      | None => counts_to_send ticks'
      end
  | _ :: ticks' => counts_to_send ticks'
  end.

End WithCollaborators.

Arguments ReadFails {Frame}.
Arguments ReadRaises {Frame} e.
Arguments DetectRaises {Frame} e.
Arguments ShowRaises {Frame} frame now e.
Arguments Shows {Frame} frame now key.
Arguments KeyRaises {Frame} frame now e.
Arguments UiVideoCapture {Frame} index.
Arguments UiRelease {Frame}.
Arguments UiDestroyAllWindows {Frame}.
Arguments UiImshow {Frame} window frame.
Arguments UiPrint {Frame} text.
Arguments UiLogInfo {Frame} msg.
Arguments UiLogError {Frame} msg.
Arguments mkGesture {Frame} arduino_world camera running ui.
Arguments arduino_world {Frame} g.
Arguments camera {Frame} g.
Arguments running {Frame} g.
Arguments ui {Frame} g.
Arguments ui_emit {Frame} e g.
Arguments akCleanupResources {Frame} cleanup_fault g.
Arguments finally_cleanup {Frame} cleanup_fault pending g.
Arguments stops {Frame} t.
Arguments shows_frame {Frame} t.
Arguments until_stop {Frame} ticks.
Arguments loop_end_of {Frame} ticks.
Arguments shown_frames {Frame} evs.
Arguments releases {Frame} evs.
Arguments window_teardowns {Frame} evs.

(** What the turns of the loop may change between [g] and [g']: serial
    events and user-side events are added, among them no opening, no
    closing, no release and no window teardown; the calls of [akSendData]
    added are [sent] if the flag is set and none if it is not, in which
    case nothing at all is added on the serial side; [shown] frames are
    shown; camera, [running] and the controller's attributes stay. *)
Definition grows_by {Frame : Type} (g g' : Gesture Frame)
           (sent : list PyValue) (shown : nat) : Prop :=
  camera g' = camera g
  /\ running g' = running g
  /\ chan (arduino_world g') = chan (arduino_world g)
  /\ exists (evs : list Event) (uevs : list (UiEvent Frame)),
      trace (arduino_world g') = trace (arduino_world g) ++ evs
      /\ ui g' = ui g ++ uevs
      /\ send_calls evs
         = (if isConnected (chan (arduino_world g)) then sent else [])
      /\ (isConnected (chan (arduino_world g)) = false -> evs = [])
      /\ closes evs = []
      /\ opens evs = []
      /\ releases uevs = 0%nat
      /\ window_teardowns uevs = 0%nat
      /\ length (shown_frames uevs) = shown.

End App.

Import App.

(* ------------------------------------------------------------------ *)
(** ** A run on the stand-in camera *)

Module Stage.

(** [ahmdRunMainLoop] on the stand-in camera of [Scenario], with the
    default configuration and a camera that opens, from a controller newly
    built for port COM3 at 9600 baud with a timeout of 2 seconds. *)
Definition run_on_stage (env : Transport) (fault : CleanupFault)
           (ticks : list (Tick TestFrame)) : RunEnd * Gesture TestFrame :=
  ahmdRunMainLoop TestFrame Z (fun f _ => f) (fun f => f)
    (fun _ => (480, 640)) (fun v _ => v) (fun f _ => f) (fun f _ _ => f)
    env (mkConfigManager "ak_config.json" (Some akDefaultConfig)) fault
    CamOpened ticks (new_gesture TestFrame "COM3" 9600 2).

(** Three frames and an ESC: three fingers, nothing, three fingers with
    ESC pressed; and a frame that is never reached. *)
Definition three_frames_then_esc : list (Tick TestFrame) :=
  [ Shows frame_three_fingers "12:00:00" (-1);
    Shows [] "12:00:01" (-1);
    Shows frame_three_fingers "12:00:02" 27;
    Shows frame_three_fingers "12:00:03" (-1) ]%string.

(** A frame shown, then a frame on which [cv2.imshow] raises. *)
Definition frame_then_imshow_error : list (Tick TestFrame) :=
  [ Shows frame_three_fingers "12:00:00" (-1);
    ShowRaises frame_three_fingers "12:00:01"
               (OtherException "cv2.error: imshow") ]%string.

End Stage.

Import Stage.

(* ------------------------------------------------------------------ *)
(** ** Facts about the finger counter *)

Section FingerCounterFacts.

Lemma getitem_in_range {A} (l : list A) (i : nat) (d : A) :
  (i < length l)%nat -> getitem l (Z.of_nat i) = Return (nth i l d).
Proof.
  intros Hi. unfold getitem, len. cbv zeta.
  assert (E1 : (Z.of_nat i <? 0) = false) by (apply Z.ltb_ge; lia).
  assert (E2 : (Z.of_nat (length l) <=? Z.of_nat i) = false)
    by (apply Z.leb_gt; lia).
  rewrite !E1, E2. cbn [orb]. rewrite Nat2Z.id.
  destruct (nth_error l i) as [a|] eqn:E.
  - now rewrite (nth_error_nth l i d E).
  - apply nth_error_None in E. lia.
Qed.

Lemma landmark_item_x (hand : list Landmark) (i : nat) :
  item3 (landmark_at hand i) 1 = Return (xcoord hand i).
Proof. unfold xcoord. now destruct (landmark_at hand i) as [[a b] c]. Qed.

Lemma landmark_item_y (hand : list Landmark) (i : nat) :
  item3 (landmark_at hand i) 2 = Return (ycoord hand i).
Proof. unfold ycoord. now destruct (landmark_at hand i) as [[a b] c]. Qed.

Lemma hand_getitem (hand : list Landmark) (i : Z) :
  length hand = 21%nat -> 0 <= i < 21 ->
  getitem hand i = Return (landmark_at hand (Z.to_nat i)).
Proof.
  intros L Hi. rewrite <- (Z2Nat.id i) at 1 by lia.
  apply getitem_in_range. lia.
Qed.

Lemma thumb_step_eq (hand : list Landmark) (fingers : list Z) :
  length hand = 21%nat ->
  thumb_step hand fingers = Return (fingers ++ [bit (thumb_right_of_joint hand)]).
Proof.
  intros L. unfold thumb_step.
  change (getitem akFingerTipIds 0) with (@Return Z 4). cbn [bind].
  change (4 - 1) with 3.
  rewrite (hand_getitem hand 4 L), (hand_getitem hand 3 L) by lia.
  cbn [bind]. rewrite !landmark_item_x. cbn [bind].
  change (Z.to_nat 4) with 4%nat. change (Z.to_nat 3) with 3%nat.
  unfold thumb_right_of_joint. rewrite Z.gtb_ltb.
  now destruct (xcoord hand 3 <? xcoord hand 4).
Qed.

Lemma finger_step_eq (hand : list Landmark) (i : Z) (tip : nat) (fingers : list Z) :
  length hand = 21%nat ->
  getitem akFingerTipIds i = Return (Z.of_nat tip) ->
  (2 <= tip < 21)%nat ->
  finger_step hand i fingers = Return (fingers ++ [bit (tip_above hand tip)]).
Proof.
  intros L Hi Ht. unfold finger_step. rewrite Hi. cbn [bind].
  rewrite (hand_getitem hand (Z.of_nat tip) L) by lia. cbn [bind].
  rewrite landmark_item_y. cbn [bind].
  rewrite (hand_getitem hand (Z.of_nat tip - 2) L) by lia. cbn [bind].
  rewrite landmark_item_y. cbn [bind].
  replace (Z.to_nat (Z.of_nat tip - 2)) with (tip - 2)%nat by lia.
  rewrite Nat2Z.id.
  unfold tip_above. now destruct (ycoord hand tip <? ycoord hand (tip - 2)).
Qed.

(** The list [fingers] of a 21-landmark hand: one 0/1 entry per finger,
    each decided by the source's coordinate comparison. *)
Lemma akFingers_eq (hand : list Landmark) :
  length hand = 21%nat ->
  akFingers hand = Return (map bit (classified hand)).
Proof.
  intros L. unfold akFingers. rewrite (thumb_step_eq hand [] L).
  cbn [bind app]. change (range 1 5) with [1; 2; 3; 4].
  cbn [for_in].
  rewrite (finger_step_eq hand 1 8 _ L eq_refl) by lia. cbn [bind app].
  rewrite (finger_step_eq hand 2 12 _ L eq_refl) by lia. cbn [bind app].
  rewrite (finger_step_eq hand 3 16 _ L eq_refl) by lia. cbn [bind app].
  rewrite (finger_step_eq hand 4 20 _ L eq_refl) by lia. cbn [bind app].
  reflexivity.
Qed.

Lemma count_bits (bs : list bool) :
  count (map bit bs) 1 = Z.of_nat (length (filter (fun b => b) bs)).
Proof.
  induction bs as [|b bs IH]; [reflexivity|].
  cbn [map count filter]. rewrite IH.
  destruct b; cbn [bit length];
    [change (1 =? 1) with true | change (0 =? 1) with false]; lia.
Qed.

Lemma akCountFingers_21 (hand : list Landmark) :
  length hand = 21%nat ->
  akCountFingers hand = Return (extended_count hand).
Proof.
  intros L. unfold akCountFingers, len. rewrite L.
  change (Z.of_nat 21 =? 21) with true. cbn [negb].
  rewrite (akFingers_eq hand L). cbn [bind].
  now rewrite count_bits.
Qed.

Lemma akCountFingers_not_21 (landmarks : list Landmark) :
  length landmarks <> 21%nat -> akCountFingers landmarks = Return 0.
Proof.
  intros L. unfold akCountFingers, len.
  replace (Z.of_nat (length landmarks) =? 21) with false; [reflexivity|].
  symmetry. apply Z.eqb_neq. lia.
Qed.

Lemma extended_count_range (hand : list Landmark) :
  0 <= extended_count hand <= 5.
Proof.
  unfold extended_count.
  pose proof (filter_length_le (fun b : bool => b) (classified hand)) as H.
  cbn [classified length] in H. cbn [classified]. lia.
Qed.

End FingerCounterFacts.

(* ------------------------------------------------------------------ *)
(** ** The finger counter: what it computes *)

Section ThumbFacts.

Lemma thumb_classified_iff (hand : list Landmark) :
  length hand = 21%nat ->
  thumb_classified_extended hand <-> xcoord hand 3 < xcoord hand 4.
Proof.
  intros L. unfold thumb_classified_extended.
  rewrite (akFingers_eq hand L). cbn [classified map].
  unfold thumb_right_of_joint.
  destruct (Z.ltb_spec (xcoord hand 3) (xcoord hand 4)) as [H|H]; cbn [bit].
  - split; [intros _; exact H | intros _; eexists; reflexivity].
  - split; [intros [rest E]; discriminate E | lia].
Qed.

Lemma xcoord_mirror (w : Z) (hand : list Landmark) (i : nat) :
  (i < length hand)%nat -> xcoord (mirror w hand) i = w - xcoord hand i.
Proof.
  unfold xcoord, landmark_at, mirror. revert i.
  induction hand as [|[[a b] c] hand IH]; intros [|i] Hi;
    cbn [length] in Hi; try lia.
  - reflexivity.
  - cbn [map nth]. apply IH. lia.
Qed.

Lemma sum_x_mirror (w : Z) (hand : list Landmark) :
  sum_x (mirror w hand) = Z.of_nat (length hand) * w - sum_x hand.
Proof.
  induction hand as [|[[a b] c] hand IH]; [reflexivity|].
  change (sum_x (mirror w ((a, b, c) :: hand)))
    with ((w - b) + sum_x (mirror w hand)).
  change (sum_x ((a, b, c) :: hand)) with (b + sum_x hand).
  rewrite IH. cbn [length]. lia.
Qed.

(** Flipping the image left to right keeps the thumb tip as far from the
    hand's centre as it was, but turns the source's comparison around. *)
Lemma mirror_flips_thumb_only (w : Z) (hand : list Landmark) :
  length hand = 21%nat ->
  xcoord hand 3 <> xcoord hand 4 ->
  (thumb_further_from_centroid (mirror w hand)
   <-> thumb_further_from_centroid hand)
  /\ (thumb_classified_extended (mirror w hand)
      <-> ~ thumb_classified_extended hand).
Proof.
  intros L Hne.
  assert (Lm : length (mirror w hand) = 21%nat)
    by (unfold mirror; now rewrite length_map).
  split.
  - unfold thumb_further_from_centroid, further_from.
    rewrite sum_x_mirror, !xcoord_mirror, L by lia. lia.
  - rewrite (thumb_classified_iff _ Lm), (thumb_classified_iff _ L).
    rewrite !xcoord_mirror by lia. lia.
Qed.

End ThumbFacts.

(** C2, as the code has it.  In the finger count of a 21-landmark hand the
    thumb is classified extended exactly when the horizontal coordinate of
    the thumb tip (landmark 4) is strictly greater than that of its adjacent
    joint (landmark 3).  No centre of the hand enters the test; the outcome
    is the same as "further from the centre" for every centre lying at or
    to the left of both landmarks. *)
Theorem thumb_extended_iff_tip_right_of_joint (hand : list Landmark) :
  length hand = 21%nat ->
  (thumb_classified_extended hand <-> xcoord hand 3 < xcoord hand 4)
  /\ (forall c : Z,
        c <= xcoord hand 3 -> c <= xcoord hand 4 ->
        (thumb_classified_extended hand
         <-> further_from c (xcoord hand 4) (xcoord hand 3))).
Proof.
  intros L. split.
  - exact (thumb_classified_iff hand L).
  - intros c H3 H4. rewrite (thumb_classified_iff hand L).
    unfold further_from. lia.
Qed.

Lemma thumb_extended_iff_tip_right_of_joint_witness :
  length (mirror 640 open_hand_thumb_left) = 21%nat
  /\ 300 <= xcoord (mirror 640 open_hand_thumb_left) 3
  /\ 300 <= xcoord (mirror 640 open_hand_thumb_left) 4
  /\ (thumb_classified_extended (mirror 640 open_hand_thumb_left)
      <-> xcoord (mirror 640 open_hand_thumb_left) 3
          < xcoord (mirror 640 open_hand_thumb_left) 4)
  /\ (thumb_classified_extended (mirror 640 open_hand_thumb_left)
      <-> further_from 300 (xcoord (mirror 640 open_hand_thumb_left) 4)
                       (xcoord (mirror 640 open_hand_thumb_left) 3)).
Proof.
  split; [reflexivity|].
  split; [vm_compute; discriminate|].
  split; [vm_compute; discriminate|].
  split.
  - apply (thumb_extended_iff_tip_right_of_joint
             (mirror 640 open_hand_thumb_left) eq_refl).
  - apply (proj2 (thumb_extended_iff_tip_right_of_joint
                    (mirror 640 open_hand_thumb_left) eq_refl) 300);
      vm_compute; discriminate.
Defined.

(** C2, as stated, fails.  For the open hand whose thumb points to the left
    of the image, the thumb tip lies further from the hand's centre than its
    adjacent joint (whether the centre is the mean of the landmarks, the
    wrist or the middle knuckle), and yet the thumb is classified as not
    extended: [fingers] is [[0; 1; 1; 1; 1]] and the count is 4. *)
Lemma thumb_further_from_centre_not_counted :
  length open_hand_thumb_left = 21%nat
  /\ akFingers open_hand_thumb_left = Return [0; 1; 1; 1; 1]
  /\ akCountFingers open_hand_thumb_left = Return 4
  /\ thumb_further_from_centroid open_hand_thumb_left
  /\ thumb_further_from_wrist open_hand_thumb_left
  /\ thumb_further_from_palm open_hand_thumb_left
  /\ ~ (thumb_classified_extended open_hand_thumb_left
        <-> thumb_further_from_centroid open_hand_thumb_left).
Proof.
  assert (C : thumb_further_from_centroid open_hand_thumb_left)
    by (unfold thumb_further_from_centroid, further_from; cbn; lia).
  repeat split; try reflexivity; try exact C.
  - intros [_ H]. destruct (H C) as [rest E]. discriminate E.
Qed.

(** C3.  For every 21-landmark hand, each non-thumb finger (tips 8, 12, 16,
    20) is classified extended exactly when the tip's vertical coordinate is
    strictly less than that of the landmark with id tip minus 2, and the
    result is the number of fingers, thumb included, classified extended. *)
Theorem nonthumb_rule_and_count (hand : list Landmark) :
  length hand = 21%nat ->
  exists t f8 f12 f16 f20 : bool,
    akFingers hand = Return [bit t; bit f8; bit f12; bit f16; bit f20]
    /\ (f8 = true <-> ycoord hand 8 < ycoord hand 6)
    /\ (f12 = true <-> ycoord hand 12 < ycoord hand 10)
    /\ (f16 = true <-> ycoord hand 16 < ycoord hand 14)
    /\ (f20 = true <-> ycoord hand 20 < ycoord hand 18)
    /\ akCountFingers hand
       = Return (bit t + bit f8 + bit f12 + bit f16 + bit f20).
Proof.
  intros L.
  exists (thumb_right_of_joint hand), (tip_above hand 8), (tip_above hand 12),
         (tip_above hand 16), (tip_above hand 20).
  split; [exact (akFingers_eq hand L)|].
  repeat (split; [unfold tip_above; apply Z.ltb_lt|]).
  rewrite (akCountFingers_21 hand L). unfold extended_count, classified.
  f_equal.
  destruct (thumb_right_of_joint hand), (tip_above hand 8), (tip_above hand 12),
           (tip_above hand 16), (tip_above hand 20); reflexivity.
Qed.

Lemma nonthumb_rule_and_count_witness :
  length open_hand_thumb_left = 21%nat
  /\ exists t f8 f12 f16 f20 : bool,
      akFingers open_hand_thumb_left
      = Return [bit t; bit f8; bit f12; bit f16; bit f20]
      /\ (f8 = true
          <-> ycoord open_hand_thumb_left 8 < ycoord open_hand_thumb_left 6)
      /\ (f12 = true
          <-> ycoord open_hand_thumb_left 12 < ycoord open_hand_thumb_left 10)
      /\ (f16 = true
          <-> ycoord open_hand_thumb_left 16 < ycoord open_hand_thumb_left 14)
      /\ (f20 = true
          <-> ycoord open_hand_thumb_left 20 < ycoord open_hand_thumb_left 18)
      /\ akCountFingers open_hand_thumb_left
         = Return (bit t + bit f8 + bit f12 + bit f16 + bit f20).
Proof.
  split; [reflexivity|].
  apply (nonthumb_rule_and_count open_hand_thumb_left). reflexivity.
Defined.

(** C4.  For every hand of exactly 21 landmarks the finger count is an
    integer between 0 and 5, and equal inputs give equal results. *)
Theorem count_in_range_and_deterministic (hand : list Landmark) :
  length hand = 21%nat ->
  (exists n : Z, akCountFingers hand = Return n /\ 0 <= n <= 5)
  /\ (forall hand' : list Landmark,
        hand' = hand -> akCountFingers hand' = akCountFingers hand).
Proof.
  intros L. split.
  - exists (extended_count hand). split.
    + exact (akCountFingers_21 hand L).
    + apply extended_count_range.
  - intros hand' E. now rewrite E.
Qed.

Lemma count_in_range_and_deterministic_witness :
  length (mirror 640 open_hand_thumb_left) = 21%nat
  /\ (exists n : Z,
        akCountFingers (mirror 640 open_hand_thumb_left) = Return n
        /\ 0 <= n <= 5)
  /\ (forall hand' : list Landmark,
        hand' = mirror 640 open_hand_thumb_left ->
        akCountFingers hand'
        = akCountFingers (mirror 640 open_hand_thumb_left)).
Proof.
  split; [reflexivity|].
  apply (count_in_range_and_deterministic (mirror 640 open_hand_thumb_left)).
  reflexivity.
Defined.

(** C5.  For every landmark list whose length is not 21, shorter or longer,
    the finger count returns 0: a returned value, not a raised error. *)
Theorem count_zero_when_not_21 (landmarks : list Landmark) :
  length landmarks <> 21%nat ->
  akCountFingers landmarks = Return 0
  /\ (forall e : exn, akCountFingers landmarks <> Raise e).
Proof.
  intros L. rewrite (akCountFingers_not_21 landmarks L).
  split; [reflexivity | discriminate].
Qed.

Lemma count_zero_when_not_21_witness :
  (length (open_hand_thumb_left ++ [(21, 0, 0)]) <> 21%nat
   /\ akCountFingers (open_hand_thumb_left ++ [(21, 0, 0)]) = Return 0
   /\ (forall e : exn,
         akCountFingers (open_hand_thumb_left ++ [(21, 0, 0)]) <> Raise e))
  /\ (length (firstn 20 open_hand_thumb_left) <> 21%nat
      /\ akCountFingers (firstn 20 open_hand_thumb_left) = Return 0
      /\ (forall e : exn,
            akCountFingers (firstn 20 open_hand_thumb_left) <> Raise e)).
Proof.
  split.
  - split; [discriminate|].
    apply (count_zero_when_not_21 (open_hand_thumb_left ++ [(21, 0, 0)])).
    discriminate.
  - split; [discriminate|].
    apply (count_zero_when_not_21 (firstn 20 open_hand_thumb_left)).
    discriminate.
Defined.

(** C10.  The finger count of a 21-landmark hand depends only on the
    horizontal coordinates of landmarks 3 and 4 and the vertical coordinates
    of landmarks 6, 8, 10, 12, 14, 16, 18 and 20: two such hands that agree
    on these ten values have the same count. *)
Theorem count_depends_on_ten_coordinates (hand1 hand2 : list Landmark) :
  length hand1 = 21%nat -> length hand2 = 21%nat ->
  xcoord hand1 3 = xcoord hand2 3 -> xcoord hand1 4 = xcoord hand2 4 ->
  ycoord hand1 6 = ycoord hand2 6 -> ycoord hand1 8 = ycoord hand2 8 ->
  ycoord hand1 10 = ycoord hand2 10 -> ycoord hand1 12 = ycoord hand2 12 ->
  ycoord hand1 14 = ycoord hand2 14 -> ycoord hand1 16 = ycoord hand2 16 ->
  ycoord hand1 18 = ycoord hand2 18 -> ycoord hand1 20 = ycoord hand2 20 ->
  akCountFingers hand1 = akCountFingers hand2.
Proof.
  intros L1 L2 X3 X4 Y6 Y8 Y10 Y12 Y14 Y16 Y18 Y20.
  rewrite (akCountFingers_21 hand1 L1), (akCountFingers_21 hand2 L2).
  unfold extended_count, classified, thumb_right_of_joint, tip_above.
  cbn [Nat.sub].
  now rewrite X3, X4, Y6, Y8, Y10, Y12, Y14, Y16, Y18, Y20.
Qed.

(* ------------------------------------------------------------------ *)
(** ** Facts about the command channel *)

Section ChannelFacts.

Variable env : Transport.

Lemma events_since_app (w : World) (c : AKArduinoController) (evs : list Event) :
  events_since w (mkWorld c (trace w ++ evs)) = evs.
Proof.
  unfold events_since. cbn [trace].
  rewrite skipn_app, skipn_all, Nat.sub_diag. reflexivity.
Qed.

Lemma events_since_refl (w : World) : events_since w w = [].
Proof. unfold events_since. apply skipn_all. Qed.

Lemma ahmdConnect_opened (w : World) :
  open_outcome env (trace w) (port (chan w)) (baud_rate (chan w))
               (timeout (chan w)) = None ->
  ahmdConnect env w
  = (Return true,
     mkWorld (mkController (port (chan w)) (baud_rate (chan w))
                           (timeout (chan w)) (Some (opened_in w)) true)
             (trace w ++ [ EvOpened (opened_in w); EvSleep 2;
                           EvLogInfo ("AK Arduino connected on "
                                      ++ port (chan w)) ])).
Proof.
  intros H.
  unfold ahmdConnect, try_except_SerialException, mbind, get_self,
    serial_Serial.
  rewrite H.
  unfold set_arduino, time_sleep, set_isConnected, logging_info, emit, ret.
  cbn [chan trace port baud_rate timeout arduino isConnected].
  rewrite <- !app_assoc. reflexivity.
Qed.

Lemma ahmdConnect_refused (w : World) (cause : string) :
  open_outcome env (trace w) (port (chan w)) (baud_rate (chan w))
               (timeout (chan w)) = Some cause ->
  ahmdConnect env w
  = (Return false,
     mkWorld (mkController (port (chan w)) (baud_rate (chan w))
                           (timeout (chan w)) (arduino (chan w)) false)
             (trace w ++ [ EvOpenFailed (port (chan w)) cause;
                           EvLogError ("AHMD Arduino connection failed: "
                                       ++ cause) ])).
Proof.
  intros H.
  unfold ahmdConnect, try_except_SerialException, mbind, get_self,
    serial_Serial.
  rewrite H.
  unfold set_isConnected, logging_error, emit, ret.
  cbn [chan trace port baud_rate timeout arduino isConnected].
  rewrite <- !app_assoc. reflexivity.
Qed.

(** [akSendData] with the flag cleared: nothing but the call itself. *)
Lemma akSendData_flag_off (data : PyValue) (w : World) :
  isConnected (chan w) = false ->
  akSendData env data w
  = (Return false, mkWorld (chan w) (trace w ++ [EvCall_akSendData data])).
Proof.
  intros H. unfold akSendData, mbind, emit, get_self, ret.
  cbn [chan trace]. rewrite H. reflexivity.
Qed.

(** [akSendData] with the flag set and a port object: one write, and the
    device decides how it ends. *)
Lemma akSendData_flag_on (data : PyValue) (w : World) (h : Serial) :
  isConnected (chan w) = true ->
  arduino (chan w) = Some h ->
  akSendData env data w
  = match write_outcome env (trace w ++ [EvCall_akSendData data]) h
                        (bytes_utf8 (py_str data)) with
    | None =>
        (Return true,
         mkWorld (chan w)
                 (trace w ++ [ EvCall_akSendData data;
                               EvWrite h (bytes_utf8 (py_str data)) ]))
    | Some cause =>
        (Return false,
         mkWorld (chan w)
                 (trace w ++ [ EvCall_akSendData data;
                               EvWrite h (bytes_utf8 (py_str data));
                               EvLogError ("AK data transmission failed: "
                                           ++ cause) ]))
    end.
Proof.
  intros Hc Ha.
  unfold akSendData, mbind, emit, get_self, try_except_SerialException,
    serial_write, ret.
  cbn [chan trace]. rewrite Hc, Ha. cbn [negb truthy orb chan trace].
  rewrite Ha. cbn [chan trace].
  destruct (write_outcome env (trace w ++ [EvCall_akSendData data]) h
                          (bytes_utf8 (py_str data))) as [cause|];
    unfold logging_error, emit; cbn [chan trace];
    rewrite <- !app_assoc; reflexivity.
Qed.

(** [akSendData] with the flag set but no port object. *)
Lemma akSendData_no_port (data : PyValue) (w : World) :
  arduino (chan w) = None ->
  akSendData env data w
  = (Return false, mkWorld (chan w) (trace w ++ [EvCall_akSendData data])).
Proof.
  intros H. unfold akSendData, mbind, emit, get_self, ret.
  cbn [chan trace]. rewrite H. cbn [truthy negb].
  rewrite orb_true_r. reflexivity.
Qed.

Lemma ahmdDisconnect_flag_off (w : World) :
  isConnected (chan w) = false -> ahmdDisconnect w = (Return tt, w).
Proof.
  intros H. unfold ahmdDisconnect, mbind, get_self, ret.
  rewrite H, andb_false_r. reflexivity.
Qed.

Lemma ahmdDisconnect_flag_on (w : World) (h : Serial) :
  isConnected (chan w) = true ->
  arduino (chan w) = Some h ->
  ahmdDisconnect w
  = (Return tt,
     mkWorld (mkController (port (chan w)) (baud_rate (chan w))
                           (timeout (chan w)) (Some h) false)
             (trace w ++ [ EvClose h;
                           EvLogInfo "AHMD Arduino disconnected" ])).
Proof.
  intros Hc Ha.
  unfold ahmdDisconnect, mbind, get_self, serial_close, set_isConnected,
    logging_info, emit, ret.
  rewrite Hc, Ha. cbn [truthy andb chan trace port baud_rate timeout arduino].
  rewrite <- !app_assoc, Ha. reflexivity.
Qed.

Lemma ahmdConnect_keeps_port (w : World) :
  has_port_when_connected (chan (snd (ahmdConnect env w))).
Proof.
  destruct (open_outcome env (trace w) (port (chan w)) (baud_rate (chan w))
                         (timeout (chan w))) as [cause|] eqn:E.
  - rewrite (ahmdConnect_refused w cause E). intros H. discriminate H.
  - rewrite (ahmdConnect_opened w E). intros _. eexists. reflexivity.
Qed.

Lemma akSendData_keeps_chan (data : PyValue) (w : World) :
  chan (snd (akSendData env data w)) = chan w.
Proof.
  destruct (isConnected (chan w)) eqn:Hc.
  - destruct (arduino (chan w)) as [h|] eqn:Ha.
    + rewrite (akSendData_flag_on data w h Hc Ha).
      now destruct (write_outcome _ _ _ _).
    + now rewrite (akSendData_no_port data w Ha).
  - now rewrite (akSendData_flag_off data w Hc).
Qed.

Lemma ahmdDisconnect_keeps_port (w : World) :
  has_port_when_connected (chan w) ->
  isConnected (chan (snd (ahmdDisconnect w))) = false.
Proof.
  intros I. destruct (isConnected (chan w)) eqn:Hc.
  - destruct (I Hc) as [h Ha].
    now rewrite (ahmdDisconnect_flag_on w h Hc Ha).
  - now rewrite (ahmdDisconnect_flag_off w Hc).
Qed.

Lemma reachable_has_port (w : World) :
  reachable env w -> has_port_when_connected (chan w).
Proof.
  induction 1 as [p b t tr | w _ _ | w data _ IH | w _ IH].
  - intros H. discriminate H.
  - apply ahmdConnect_keeps_port.
  - now rewrite akSendData_keeps_chan.
  - intros H. rewrite (ahmdDisconnect_keeps_port w IH) in H. discriminate H.
Qed.

End ChannelFacts.

Lemma count_depends_on_ten_coordinates_witness :
  (length open_hand_thumb_left = 21%nat
   /\ length (moved_elsewhere open_hand_thumb_left) = 21%nat
   /\ moved_elsewhere open_hand_thumb_left <> open_hand_thumb_left)
  /\ akCountFingers open_hand_thumb_left
     = akCountFingers (moved_elsewhere open_hand_thumb_left).
Proof.
  split.
  - repeat split. discriminate.
  - apply (count_depends_on_ten_coordinates
             open_hand_thumb_left (moved_elsewhere open_hand_thumb_left));
      reflexivity.
Defined.

(* ------------------------------------------------------------------ *)
(** ** The command channel: connect, send, disconnect *)

(** C7.  [ahmdConnect] never raises.  When the port opens it returns true
    with the channel Connected, and between the opening and the return it
    sleeps the fixed 2 seconds, so that no send can come earlier.  When the
    port does not open it logs the cause, returns false and leaves the
    channel in the state Failed, in which a send returns false and writes
    nothing. *)
Theorem connect_success_and_failure (env : Transport) (w : World) :
  match open_outcome env (trace w) (port (chan w)) (baud_rate (chan w))
                     (timeout (chan w)) with
  | None =>
      fst (ahmdConnect env w) = Return true
      /\ in_state (chan (snd (ahmdConnect env w))) Connected
      /\ arduino (chan (snd (ahmdConnect env w))) = Some (opened_in w)
      /\ events_since w (snd (ahmdConnect env w))
         = [ EvOpened (opened_in w); EvSleep 2;
             EvLogInfo ("AK Arduino connected on " ++ port (chan w)) ]
  | Some cause =>
      fst (ahmdConnect env w) = Return false
      /\ in_state (chan (snd (ahmdConnect env w))) Failed
      /\ events_since w (snd (ahmdConnect env w))
         = [ EvOpenFailed (port (chan w)) cause;
             EvLogError ("AHMD Arduino connection failed: " ++ cause) ]
      /\ (forall data : PyValue,
            fst (akSendData env data (snd (ahmdConnect env w))) = Return false
            /\ writes (events_since (snd (ahmdConnect env w))
                         (snd (akSendData env data (snd (ahmdConnect env w)))))
               = [])
  end.
Proof.
  destruct (open_outcome env (trace w) (port (chan w)) (baud_rate (chan w))
                         (timeout (chan w))) as [cause|] eqn:E.
  - rewrite (ahmdConnect_refused env w cause E). cbn [fst snd].
    split; [reflexivity|]. split; [reflexivity|].
    split; [apply events_since_app|].
    intros data. rewrite akSendData_flag_off by reflexivity. cbn [fst snd].
    split; [reflexivity|].
    match goal with
    | |- writes (events_since ?w0 _) = _ =>
        change (writes (events_since w0
                  (mkWorld (chan w0) (trace w0 ++ [EvCall_akSendData data])))
                = [])
    end.
    now rewrite events_since_app.
  - rewrite (ahmdConnect_opened env w E). cbn [fst snd].
    split; [reflexivity|]. split; [reflexivity|]. split; [reflexivity|].
    apply events_since_app.
Qed.

(** C6.  For every value: when the channel is not Connected, as it is
    before any successful connect, [akSendData] returns false at once,
    without raising, writing or logging; when the channel is Connected and
    the write on its port fails, [akSendData] logs the error, returns false
    and leaves the channel Connected. *)
Theorem send_failure_semantics (env : Transport) (data : PyValue) (w : World) :
  (~ in_state (chan w) Connected ->
   akSendData env data w
   = (Return false, mkWorld (chan w) (trace w ++ [EvCall_akSendData data])))
  /\ (forall (p : string) (b t : Z) (tr : list Event),
        fst (akSendData env data (mkWorld (init p b t) tr)) = Return false)
  /\ (forall (h : Serial) (cause : string),
        in_state (chan w) Connected ->
        arduino (chan w) = Some h ->
        write_outcome env (trace w ++ [EvCall_akSendData data]) h
                      (bytes_utf8 (py_str data)) = Some cause ->
        fst (akSendData env data w) = Return false
        /\ events_since w (snd (akSendData env data w))
           = [ EvCall_akSendData data;
               EvWrite h (bytes_utf8 (py_str data));
               EvLogError ("AK data transmission failed: " ++ cause) ]
        /\ chan (snd (akSendData env data w)) = chan w
        /\ in_state (chan (snd (akSendData env data w))) Connected).
Proof.
  split; [|split].
  - intros H. apply akSendData_flag_off.
    cbn [in_state] in H. now destruct (isConnected (chan w)).
  - intros p b t tr. now rewrite akSendData_flag_off.
  - intros h cause Hc Ha Hw. cbn [in_state] in Hc.
    rewrite (akSendData_flag_on env data w h Hc Ha), Hw. cbn [fst snd chan].
    repeat split; [apply events_since_app | exact Hc].
Qed.

Lemma send_failure_semantics_witness :
  (~ in_state (chan fresh) Connected
   /\ akSendData device_present (PyInt 3) fresh
      = (Return false,
         mkWorld (chan fresh) (trace fresh ++ [EvCall_akSendData (PyInt 3)])))
  /\ (in_state (chan (connected device_unplugged_later)) Connected
      /\ arduino (chan (connected device_unplugged_later))
         = Some (opened_in fresh)
      /\ write_outcome device_unplugged_later
           (trace (connected device_unplugged_later)
            ++ [EvCall_akSendData (PyInt 3)])
           (opened_in fresh) (bytes_utf8 (py_str (PyInt 3)))
         = Some "write failed"%string
      /\ fst (akSendData device_unplugged_later (PyInt 3)
                (connected device_unplugged_later)) = Return false
      /\ in_state
           (chan (snd (akSendData device_unplugged_later (PyInt 3)
                         (connected device_unplugged_later))))
           Connected).
Proof.
  split.
  - split; [discriminate|].
    apply (send_failure_semantics device_present (PyInt 3) fresh).
    discriminate.
  - split; [reflexivity|]. split; [reflexivity|]. split; [reflexivity|].
    pose proof (send_failure_semantics device_unplugged_later (PyInt 3)
                  (connected device_unplugged_later)) as [_ [_ H]].
    destruct (H (opened_in fresh) "write failed"%string
                eq_refl eq_refl eq_refl) as [R [_ [_ S]]].
    exact (conj R S).
Defined.

(** C8.  In every world the program can reach, [ahmdDisconnect] does not
    fault and leaves the channel Disconnected; calling it again, or calling
    it while not connected, changes nothing and faults neither; and after a
    successful connect, a disconnect followed by a send makes that send
    return false. *)
Theorem disconnect_idempotent (env : Transport) (w : World) :
  reachable env w ->
  fst (ahmdDisconnect w) = Return tt
  /\ in_state (chan (snd (ahmdDisconnect w))) Disconnected
  /\ ahmdDisconnect (snd (ahmdDisconnect w))
     = (Return tt, snd (ahmdDisconnect w))
  /\ (~ in_state (chan w) Connected -> ahmdDisconnect w = (Return tt, w))
  /\ (forall data : PyValue,
        fst (ahmdConnect env w) = Return true ->
        fst (akSendData env data
               (snd (ahmdDisconnect (snd (ahmdConnect env w)))))
        = Return false).
Proof.
  intros R.
  pose proof (reachable_has_port env w R) as I.
  assert (Off : isConnected (chan (snd (ahmdDisconnect w))) = false)
    by exact (ahmdDisconnect_keeps_port w I).
  split; [|split; [|split; [|split]]].
  - destruct (isConnected (chan w)) eqn:Hc.
    + destruct (I Hc) as [h Ha].
      now rewrite (ahmdDisconnect_flag_on w h Hc Ha).
    + now rewrite (ahmdDisconnect_flag_off w Hc).
  - exact Off.
  - now apply ahmdDisconnect_flag_off.
  - intros H. apply ahmdDisconnect_flag_off.
    cbn [in_state] in H. now destruct (isConnected (chan w)).
  - intros data _.
    rewrite akSendData_flag_off; [reflexivity|].
    apply ahmdDisconnect_keeps_port, ahmdConnect_keeps_port.
Qed.

Lemma disconnect_idempotent_witness :
  (reachable device_present fresh
   /\ ~ in_state (chan fresh) Connected
   /\ ahmdDisconnect fresh = (Return tt, fresh)
   /\ ahmdDisconnect (snd (ahmdDisconnect fresh))
      = (Return tt, snd (ahmdDisconnect fresh)))
  /\ (reachable device_present (connected device_present)
      /\ fst (ahmdDisconnect (connected device_present)) = Return tt
      /\ in_state (chan (snd (ahmdDisconnect (connected device_present))))
                  Disconnected
      /\ ahmdDisconnect (snd (ahmdDisconnect (connected device_present)))
         = (Return tt, snd (ahmdDisconnect (connected device_present))))
  /\ (fst (ahmdConnect device_present fresh) = Return true
      /\ fst (akSendData device_present (PyInt 3)
                (snd (ahmdDisconnect (snd (ahmdConnect device_present fresh)))))
         = Return false).
Proof.
  split; [|split].
  - destruct (disconnect_idempotent device_present fresh
                (reach_init device_present "COM3" 9600 2 []))
      as [_ [_ [Twice [Never _]]]].
    split; [apply reach_init|]. split; [discriminate|].
    split; [apply Never; discriminate | exact Twice].
  - destruct (disconnect_idempotent device_present (connected device_present)
                (reach_connect device_present fresh
                   (reach_init device_present "COM3" 9600 2 [])))
      as [Ok [St [Twice _]]].
    split; [apply reach_connect, reach_init|].
    exact (conj Ok (conj St Twice)).
  - destruct (disconnect_idempotent device_present fresh
                (reach_init device_present "COM3" 9600 2 []))
      as [_ [_ [_ [_ After]]]].
    split; [reflexivity | apply After; reflexivity].
Defined.

(* ------------------------------------------------------------------ *)
(** ** One frame of the control loop *)

Section LoopFacts.

Variable Frame : Type.
Variable PyFloat : Type.
Variable cv2_flip : Frame -> Z -> Frame.
Variable multi_hand_landmarks : Frame -> list (list (PyFloat * PyFloat)).
Variable shape : Frame -> Z * Z.
Variable int_of_scaled : PyFloat -> Z -> Z.
Variable ahmdDrawLandmarks : Frame -> list (PyFloat * PyFloat) -> Frame.
Variable env : Transport.

Local Abbreviation detect :=
  (akDetectHands Frame PyFloat multi_hand_landmarks shape int_of_scaled
                 ahmdDrawLandmarks).
Local Abbreviation process :=
  (ahmdProcessFrame Frame PyFloat cv2_flip multi_hand_landmarks shape
                    int_of_scaled ahmdDrawLandmarks env).

Lemma getitem_head {A} (a : A) (l : list A) : getitem (a :: l) 0 = Return a.
Proof. exact (getitem_in_range (a :: l) 0 a (Nat.lt_0_succ _)). Qed.

(** The finger counter returns on every list, and what it returns is a
    count between 0 and 5. *)
Lemma akCountFingers_returns (landmarks : list Landmark) :
  exists n : Z, akCountFingers landmarks = Return n /\ 0 <= n <= 5.
Proof.
  destruct (Nat.eq_dec (length landmarks) 21) as [L|L].
  - exists (extended_count landmarks).
    split; [exact (akCountFingers_21 landmarks L) | apply extended_count_range].
  - exists 0. split; [exact (akCountFingers_not_21 landmarks L) | lia].
Qed.

(** [akSendData] always returns; it records its call, and writes once
    exactly when the flag is set and there is a port object. *)
Lemma akSendData_shape (data : PyValue) (w : World) :
  exists (b : bool) (evs : list Event),
    akSendData env data w
    = (Return b, mkWorld (chan w) (trace w ++ EvCall_akSendData data :: evs))
    /\ send_calls evs = []
    /\ writes evs
       = if isConnected (chan w) && truthy (arduino (chan w))
         then [bytes_utf8 (py_str data)] else [].
Proof.
  destruct (isConnected (chan w)) eqn:Hc.
  - destruct (arduino (chan w)) as [h|] eqn:Ha.
    + rewrite (akSendData_flag_on env data w h Hc Ha).
      destruct (write_outcome _ _ _ _) as [cause|];
        eexists; eexists; (split; [reflexivity|]); split; reflexivity.
    + rewrite (akSendData_no_port env data w Ha).
      exists false, []. repeat split.
  - rewrite (akSendData_flag_off env data w Hc).
    exists false, []. repeat split.
Qed.

(** A frame in which no hand is found: nothing happens. *)
Lemma ahmdProcessFrame_no_hand (frame : Frame) (w : World) :
  snd (detect (cv2_flip frame 1)) = [] ->
  process frame w = (Return (fst (detect (cv2_flip frame 1)), 0), w).
Proof.
  intros H. unfold ahmdProcessFrame.
  destruct (detect (cv2_flip frame 1)) as [image hands].
  cbn [fst snd] in *. subst hands. reflexivity.
Qed.

(** A frame with a hand: the first hand is counted, and [akSendData] is
    entered once if the flag is set. *)
Lemma ahmdProcessFrame_hand (frame : Frame) (w : World)
      (hand : list Landmark) (rest : list (list Landmark)) (n : Z) :
  snd (detect (cv2_flip frame 1)) = hand :: rest ->
  akCountFingers hand = Return n ->
  process frame w
  = (Return (fst (detect (cv2_flip frame 1)), n),
     if isConnected (chan w) then snd (akSendData env (PyInt n) w) else w).
Proof.
  intros H Hn. unfold ahmdProcessFrame.
  destruct (detect (cv2_flip frame 1)) as [image hands].
  cbn [fst snd] in *. subst hands. cbn [nonempty].
  unfold mbind, lift, get_self. rewrite getitem_head. cbn [bind].
  rewrite Hn. destruct (isConnected (chan w)) eqn:Hc.
  - destruct (akSendData_shape (PyInt n) w) as [b [evs [E _]]].
    rewrite E. reflexivity.
  - reflexivity.
Qed.

Lemma bytes_of_count (n : Z) :
  0 <= n <= 9 -> bytes_utf8 (py_str (PyInt n)) = [ascii_digit n].
Proof.
  intros H. destruct n as [|p|p]; [reflexivity| |lia].
  do 4 (try (destruct p as [p|p|]; try lia; try reflexivity)).
Qed.

(** C1.  For every processed frame: when the landmark source yields no hand,
    the cycle's finger count is 0, no send is attempted and nothing else
    happens; when it yields at least one, the first hand is the one counted,
    its count is the cycle's result, and [akSendData] is called exactly
    once, with that count, if the channel is Connected, and not at all if
    it is not. *)
Theorem process_frame_send_discipline (frame : Frame) (w : World) :
  match snd (detect (cv2_flip frame 1)) with
  | [] =>
      fst (process frame w) = Return (fst (detect (cv2_flip frame 1)), 0)
      /\ snd (process frame w) = w
      /\ send_calls (events_since w (snd (process frame w))) = []
  | hand :: _ =>
      exists n : Z,
        akCountFingers hand = Return n
        /\ fst (process frame w)
           = Return (fst (detect (cv2_flip frame 1)), n)
        /\ send_calls (events_since w (snd (process frame w)))
           = if isConnected (chan w) then [PyInt n] else []
  end.
Proof.
  destruct (snd (detect (cv2_flip frame 1))) as [|hand rest] eqn:H.
  - rewrite (ahmdProcessFrame_no_hand frame w H). cbn [fst snd].
    now rewrite events_since_refl.
  - destruct (akCountFingers_returns hand) as [n [Hn _]].
    exists n. split; [exact Hn|].
    rewrite (ahmdProcessFrame_hand frame w hand rest n H Hn). cbn [fst snd].
    split; [reflexivity|].
    destruct (isConnected (chan w)).
    + destruct (akSendData_shape (PyInt n) w) as [b [evs [E [S _]]]].
      rewrite E. cbn [snd]. rewrite events_since_app.
      cbn [send_calls]. now rewrite S.
    + now rewrite events_since_refl.
Qed.

(** C9.  In every cycle, with [n] the cycle's finger count: what is written
    to the port is either nothing or the single byte of the decimal digit
    of [n], with nothing before or after it; it is that one byte whenever a
    hand was found and the channel is connected with a port. *)
Theorem wire_format_is_decimal_digit (frame : Frame) (w : World) :
  exists (image : Frame) (n : Z),
    fst (process frame w) = Return (image, n)
    /\ 0 <= n <= 5
    /\ writes (events_since w (snd (process frame w)))
       = if nonempty (snd (detect (cv2_flip frame 1)))
            && isConnected (chan w) && truthy (arduino (chan w))
         then [[ascii_digit n]] else [].
Proof.
  exists (fst (detect (cv2_flip frame 1))).
  destruct (snd (detect (cv2_flip frame 1))) as [|hand rest] eqn:H.
  - exists 0. rewrite (ahmdProcessFrame_no_hand frame w H). cbn [fst snd].
    split; [reflexivity|]. split; [lia|].
    now rewrite events_since_refl.
  - destruct (akCountFingers_returns hand) as [n [Hn Rn]].
    exists n.
    rewrite (ahmdProcessFrame_hand frame w hand rest n H Hn). cbn [fst snd].
    split; [reflexivity|]. split; [exact Rn|].
    cbn [nonempty andb].
    destruct (isConnected (chan w)) eqn:Hc.
    + destruct (akSendData_shape (PyInt n) w) as [b [evs [E [_ Wr]]]].
      rewrite E. cbn [snd]. rewrite events_since_app.
      cbn [writes]. rewrite Wr, Hc. cbn [andb].
      destruct (truthy (arduino (chan w))); [|reflexivity].
      rewrite bytes_of_count by lia. reflexivity.
    + now rewrite events_since_refl.
Qed.

End LoopFacts.

(** The specification's scenario: a frame whose first hand shows three
    extended fingers, the channel connected.  One call of [akSendData]
    carrying 3, one write of the byte of ["3"]; the second hand in the frame
    plays no part. *)
Example three_fingers_sent_once :
  akCountFingers three_fingers = Return 3
  /\ fst (process_test_frame device_present frame_three_fingers
            (connected device_present))
     = Return (frame_three_fingers, 3)
  /\ events_since (connected device_present)
       (snd (process_test_frame device_present frame_three_fingers
               (connected device_present)))
     = [ EvCall_akSendData (PyInt 3); EvWrite (opened_in fresh) ["3"%byte] ].
Proof. repeat split. Qed.

(** The same frame with no device: the count is shown, nothing is sent. *)
Example three_fingers_camera_only :
  process_test_frame device_absent frame_three_fingers
    (snd (ahmdConnect device_absent fresh))
  = (Return (frame_three_fingers, 3), snd (ahmdConnect device_absent fresh)).
Proof. reflexivity. Qed.


(* ------------------------------------------------------------------ *)
(** ** More on the finger counter *)

Section CounterGeometry.

Lemma landmark_at_map (f : Landmark -> Landmark) (hand : list Landmark) (i : nat) :
  (i < length hand)%nat ->
  landmark_at (map f hand) i = f (landmark_at hand i).
Proof.
  unfold landmark_at. revert i.
  induction hand as [|lm hand IH]; intros [|i] Hi; cbn [length] in Hi; try lia.
  - reflexivity.
  - cbn [map nth]. apply IH. lia.
Qed.

Lemma xcoord_affine (k dx dy : Z) (hand : list Landmark) (i : nat) :
  (i < length hand)%nat ->
  xcoord (translate dx dy (scale k hand)) i = k * xcoord hand i + dx.
Proof.
  intros Hi. unfold xcoord, translate, scale.
  rewrite !landmark_at_map by (rewrite ?length_map; exact Hi).
  now destruct (landmark_at hand i) as [[a b] c].
Qed.

Lemma ycoord_affine (k dx dy : Z) (hand : list Landmark) (i : nat) :
  (i < length hand)%nat ->
  ycoord (translate dx dy (scale k hand)) i = k * ycoord hand i + dy.
Proof.
  intros Hi. unfold ycoord, translate, scale.
  rewrite !landmark_at_map by (rewrite ?length_map; exact Hi).
  now destruct (landmark_at hand i) as [[a b] c].
Qed.

Lemma ltb_affine (k d a b : Z) :
  0 < k -> (k * a + d <? k * b + d) = (a <? b).
Proof.
  intros Hk.
  destruct (Z.ltb_spec a b), (Z.ltb_spec (k * a + d) (k * b + d));
    try reflexivity; nia.
Qed.

Lemma ycoord_mirror (w : Z) (hand : list Landmark) (i : nat) :
  ycoord (mirror w hand) i = ycoord hand i.
Proof.
  unfold ycoord, landmark_at, mirror. revert i.
  induction hand as [|[[a b] c] hand IH]; intros [|i]; try reflexivity.
  cbn [map nth]. apply IH.
Qed.

End CounterGeometry.

(** Moving the hand in the image, or zooming by a positive whole factor,
    leaves the finger count as it is, for landmark lists of any length. *)
Theorem count_invariant_under_shift_and_zoom
        (k dx dy : Z) (landmarks : list Landmark) :
  0 < k ->
  akCountFingers (translate dx dy (scale k landmarks))
  = akCountFingers landmarks.
Proof.
  intros Hk.
  assert (Len : length (translate dx dy (scale k landmarks)) = length landmarks)
    by (unfold translate, scale; now rewrite !length_map).
  destruct (Nat.eq_dec (length landmarks) 21) as [L|L].
  - rewrite (akCountFingers_21 landmarks L).
    rewrite (akCountFingers_21 _ (eq_trans Len L)).
    unfold extended_count, classified, thumb_right_of_joint, tip_above.
    cbn [Nat.sub].
    rewrite !xcoord_affine, !ycoord_affine by lia.
    now rewrite !ltb_affine by exact Hk.
  - rewrite (akCountFingers_not_21 landmarks L).
    apply akCountFingers_not_21. now rewrite Len.
Qed.

Lemma count_invariant_under_shift_and_zoom_witness :
  0 < 3
  /\ akCountFingers (translate (-40) 25 (scale 3 three_fingers))
     = akCountFingers three_fingers.
Proof.
  split; [reflexivity|].
  apply (count_invariant_under_shift_and_zoom 3 (-40) 25 three_fingers).
  reflexivity.
Defined.

(** The count is 5 exactly when the thumb tip is right of its joint and all
    four fingertips are above the landmark two below them; it is 0 exactly
    when none of the five comparisons holds.  A tie, tip level with the
    other landmark, counts as not extended. *)
Theorem count_five_and_zero (hand : list Landmark) :
  length hand = 21%nat ->
  (akCountFingers hand = Return 5
   <-> xcoord hand 3 < xcoord hand 4
       /\ ycoord hand 8 < ycoord hand 6 /\ ycoord hand 12 < ycoord hand 10
       /\ ycoord hand 16 < ycoord hand 14 /\ ycoord hand 20 < ycoord hand 18)
  /\ (akCountFingers hand = Return 0
      <-> xcoord hand 4 <= xcoord hand 3
          /\ ycoord hand 6 <= ycoord hand 8 /\ ycoord hand 10 <= ycoord hand 12
          /\ ycoord hand 14 <= ycoord hand 16
          /\ ycoord hand 18 <= ycoord hand 20).
Proof.
  intros L. rewrite (akCountFingers_21 hand L).
  unfold extended_count, classified, thumb_right_of_joint, tip_above.
  cbn [Nat.sub].
  destruct (Z.ltb_spec (xcoord hand 3) (xcoord hand 4)),
           (Z.ltb_spec (ycoord hand 8) (ycoord hand 6)),
           (Z.ltb_spec (ycoord hand 12) (ycoord hand 10)),
           (Z.ltb_spec (ycoord hand 16) (ycoord hand 14)),
           (Z.ltb_spec (ycoord hand 20) (ycoord hand 18));
    cbn [filter length];
    (split; split; intros E;
     first [ reflexivity
           | injection E; intros; exfalso; lia
           | repeat split; lia
           | exfalso; lia ]).
Qed.

Lemma count_five_and_zero_witness :
  length (mirror 640 open_hand_thumb_left) = 21%nat
  /\ (akCountFingers (mirror 640 open_hand_thumb_left) = Return 5
      <-> xcoord (mirror 640 open_hand_thumb_left) 3
          < xcoord (mirror 640 open_hand_thumb_left) 4
          /\ ycoord (mirror 640 open_hand_thumb_left) 8
             < ycoord (mirror 640 open_hand_thumb_left) 6
          /\ ycoord (mirror 640 open_hand_thumb_left) 12
             < ycoord (mirror 640 open_hand_thumb_left) 10
          /\ ycoord (mirror 640 open_hand_thumb_left) 16
             < ycoord (mirror 640 open_hand_thumb_left) 14
          /\ ycoord (mirror 640 open_hand_thumb_left) 20
             < ycoord (mirror 640 open_hand_thumb_left) 18)
  /\ akCountFingers (mirror 640 open_hand_thumb_left) = Return 5.
Proof.
  split; [reflexivity|].
  split.
  - apply (count_five_and_zero (mirror 640 open_hand_thumb_left) eq_refl).
  - reflexivity.
Defined.

(** The frame is flipped before detection, and the flip matters: a hand and
    its left-right mirror image get counts that differ by exactly one, the
    thumb, unless thumb tip and joint are level in x. *)
Theorem mirror_changes_count_by_thumb (w : Z) (hand : list Landmark) :
  length hand = 21%nat ->
  xcoord hand 3 <> xcoord hand 4 ->
  exists n m : Z,
    akCountFingers hand = Return n
    /\ akCountFingers (mirror w hand) = Return m
    /\ (if xcoord hand 3 <? xcoord hand 4 then m = n - 1 else m = n + 1).
Proof.
  intros L Hne.
  assert (Lm : length (mirror w hand) = 21%nat)
    by (unfold mirror; now rewrite length_map).
  exists (extended_count hand), (extended_count (mirror w hand)).
  split; [exact (akCountFingers_21 hand L)|].
  split; [exact (akCountFingers_21 _ Lm)|].
  unfold extended_count, classified, thumb_right_of_joint, tip_above.
  cbn [Nat.sub].
  rewrite !ycoord_mirror, !xcoord_mirror by lia.
  destruct (Z.ltb_spec (xcoord hand 3) (xcoord hand 4)),
           (Z.ltb_spec (w - xcoord hand 3) (w - xcoord hand 4));
    try lia;
    destruct (ycoord hand 8 <? ycoord hand 6),
             (ycoord hand 12 <? ycoord hand 10),
             (ycoord hand 16 <? ycoord hand 14),
             (ycoord hand 20 <? ycoord hand 18);
    cbn [filter length]; lia.
Qed.

Lemma mirror_changes_count_by_thumb_witness :
  length open_hand_thumb_left = 21%nat
  /\ xcoord open_hand_thumb_left 3 <> xcoord open_hand_thumb_left 4
  /\ akCountFingers open_hand_thumb_left = Return 4
  /\ akCountFingers (mirror 640 open_hand_thumb_left) = Return 5
  /\ exists n m : Z,
      akCountFingers open_hand_thumb_left = Return n
      /\ akCountFingers (mirror 640 open_hand_thumb_left) = Return m
      /\ (if xcoord open_hand_thumb_left 3 <? xcoord open_hand_thumb_left 4
          then m = n - 1 else m = n + 1).
Proof.
  split; [reflexivity|].
  split; [discriminate|].
  split; [reflexivity|].
  split; [reflexivity|].
  apply (mirror_changes_count_by_thumb 640 open_hand_thumb_left eq_refl).
  discriminate.
Defined.

(* ------------------------------------------------------------------ *)
(** ** akDetectHands *)

Section DetectFacts.

Variable Frame : Type.
Variable PyFloat : Type.
Variable multi_hand_landmarks : Frame -> list (list (PyFloat * PyFloat)).
Variable shape : Frame -> Z * Z.
Variable int_of_scaled : PyFloat -> Z -> Z.
Variable ahmdDrawLandmarks : Frame -> list (PyFloat * PyFloat) -> Frame.

Local Abbreviation detect :=
  (akDetectHands Frame PyFloat multi_hand_landmarks shape int_of_scaled
                 ahmdDrawLandmarks).
Local Abbreviation pixels := (pixel_landmarks Frame PyFloat shape int_of_scaled).
Local Abbreviation loop_from :=
  (detect_loop Frame PyFloat shape int_of_scaled ahmdDrawLandmarks).

Lemma enumerate_from_ids {A} (start : Z) (l : list A) :
  map fst (enumerate_from start l)
  = map (fun k => start + Z.of_nat k) (seq 0 (length l)).
Proof.
  revert start. induction l as [|a l IH]; intros start; [reflexivity|].
  cbn [enumerate_from map length seq fst]. rewrite IH.
  rewrite <- seq_shift, map_map. f_equal; [lia|].
  apply map_ext. intros k. lia.
Qed.

Lemma pixel_landmarks_ids (image : Frame) (raw : list (PyFloat * PyFloat)) :
  map (fun lm : Landmark => fst (fst lm)) (pixels image raw)
  = map Z.of_nat (seq 0 (length raw)).
Proof.
  unfold pixel_landmarks. destruct (shape image) as [h w].
  rewrite map_map.
  transitivity (map fst (enumerate_from 0 raw)).
  - apply map_ext. intros [id [x y]]. reflexivity.
  - rewrite enumerate_from_ids. apply map_ext. intros k. lia.
Qed.

Lemma detect_loop_closed_form (hands : list (list (PyFloat * PyFloat))) :
  forall (image : Frame) (acc : list (list Landmark)),
    loop_from image hands acc
    = (fold_left ahmdDrawLandmarks hands image,
       acc ++ map (fun k =>
                     pixels (fold_left ahmdDrawLandmarks (firstn k hands) image)
                            (nth k hands []))
                  (seq 0 (length hands))).
Proof.
  induction hands as [|hand hands IH]; intros image acc.
  - cbn [detect_loop fold_left length seq map]. now rewrite app_nil_r.
  - cbn [detect_loop]. rewrite IH.
    cbn [fold_left length seq map firstn nth].
    rewrite <- seq_shift, map_map, <- app_assoc. reflexivity.
Qed.

(** [akDetectHands] gives back the image with every detected hand drawn on
    it, and one landmark list per detected hand, in MediaPipe's order: the
    list for hand [k] is computed from the image as drawn so far, has one
    entry per landmark reported, and numbers its entries 0, 1, 2, ... *)
Theorem detect_hands_in_order_with_ids (image : Frame) :
  fst (detect image)
  = fold_left ahmdDrawLandmarks (multi_hand_landmarks image) image
  /\ snd (detect image)
     = map (fun k =>
              pixels (fold_left ahmdDrawLandmarks
                        (firstn k (multi_hand_landmarks image)) image)
                     (nth k (multi_hand_landmarks image) []))
           (seq 0 (length (multi_hand_landmarks image)))
  /\ (forall (img : Frame) (raw : list (PyFloat * PyFloat)),
        length (pixels img raw) = length raw
        /\ map (fun lm : Landmark => fst (fst lm)) (pixels img raw)
           = map Z.of_nat (seq 0 (length raw))).
Proof.
  unfold akDetectHands. rewrite detect_loop_closed_form. cbn [fst snd app].
  split; [reflexivity|]. split; [reflexivity|].
  intros img raw.
  pose proof (pixel_landmarks_ids img raw) as H.
  split; [|exact H].
  apply (f_equal (@length Z)) in H.
  now rewrite !length_map, length_seq in H.
Qed.

End DetectFacts.

(* ------------------------------------------------------------------ *)
(** ** More on the command channel *)

Section ChannelDiscipline.

Variable env : Transport.

Lemma nth_error_app_cases {A} (l1 l2 : list A) (i : nat) (a : A) :
  nth_error (l1 ++ l2) i = Some a ->
  ((i < length l1)%nat /\ nth_error l1 i = Some a)
  \/ (exists k : nat, i = (length l1 + k)%nat /\ nth_error l2 k = Some a).
Proof.
  intros H. destruct (Nat.lt_ge_cases i (length l1)) as [Lt|Ge].
  - left. split; [exact Lt|]. now rewrite nth_error_app1 in H.
  - right. exists (i - length l1)%nat. split; [lia|].
    now rewrite nth_error_app2 in H.
Qed.

Lemma nth_error_old {A} (l1 l2 : list A) (i : nat) (a : A) :
  nth_error l1 i = Some a -> nth_error (l1 ++ l2) i = Some a.
Proof.
  intros H. rewrite nth_error_app1; [exact H|].
  apply nth_error_Some. congruence.
Qed.

Lemma nth_error_new {A} (l1 l2 : list A) (k : nat) :
  nth_error (l1 ++ l2) (length l1 + k) = nth_error l2 k.
Proof.
  rewrite nth_error_app2 by lia. f_equal. lia.
Qed.

Lemma discipline_trace_parts (tr evs : list Event) :
  writes_after_settle tr ->
  no_write_after_close tr ->
  (forall i h, nth_error tr i = Some (EvClose h) -> (ser_id h < i)%nat) ->
  quiet evs ->
  writes_after_settle (tr ++ evs)
  /\ no_write_after_close (tr ++ evs)
  /\ (forall i h, nth_error (tr ++ evs) i = Some (EvClose h) ->
                  (ser_id h < i)%nat).
Proof.
  intros S1 S2 S3 Q. split; [|split].
  - intros i h p H.
    destruct (nth_error_app_cases _ _ _ _ H) as [[_ Old]|[k [_ New]]].
    + destruct (S1 i h p Old) as [j [Lt [O Sl]]].
      exists j. split; [exact Lt|]. split; now apply nth_error_old.
    + exfalso. exact (proj1 (Q k _ New) h p eq_refl).
  - intros i j h p Hc Hw.
    destruct (nth_error_app_cases _ _ _ _ Hc) as [[_ OldC]|[k [_ NewC]]].
    + destruct (nth_error_app_cases _ _ _ _ Hw) as [[_ OldW]|[k [_ NewW]]].
      * exact (S2 i j h p OldC OldW).
      * exfalso. exact (proj1 (Q k _ NewW) h p eq_refl).
    + exfalso. exact (proj2 (Q k _ NewC) h eq_refl).
  - intros i h Hc.
    destruct (nth_error_app_cases _ _ _ _ Hc) as [[_ OldC]|[k [_ NewC]]].
    + exact (S3 i h OldC).
    + exfalso. exact (proj2 (Q k _ NewC) h eq_refl).
Qed.

Ltac few_events H k :=
  destruct k as [|[|[|k]]]; cbn [nth_error] in H;
  try discriminate H; try (destruct k; discriminate H);
  injection H as <-.

Lemma discipline_connect (w : World) :
  trace_discipline w -> trace_discipline (snd (ahmdConnect env w)).
Proof.
  intros [S1 [S2 [S3 [S4 S5]]]].
  destruct (open_outcome env (trace w) (port (chan w)) (baud_rate (chan w))
                         (timeout (chan w))) as [cause|] eqn:E.
  - rewrite (ahmdConnect_refused env w cause E). cbn [snd].
    unfold trace_discipline. cbn [trace chan arduino isConnected].
    destruct (discipline_trace_parts (trace w)
                [ EvOpenFailed (port (chan w)) cause;
                  EvLogError ("AHMD Arduino connection failed: " ++ cause) ]
                S1 S2 S3) as [T1 [T2 T3]].
    { intros k e H. few_events H k; split; intros; discriminate. }
    split; [exact T1|]. split; [exact T2|]. split; [exact T3|]. split.
    + intros h Ha. pose proof (S4 h Ha). rewrite length_app. lia.
    + intros h Hc. discriminate Hc.
  - rewrite (ahmdConnect_opened env w E). cbn [snd].
    unfold trace_discipline. cbn [trace chan arduino isConnected].
    destruct (discipline_trace_parts (trace w)
                [ EvOpened (opened_in w); EvSleep 2;
                  EvLogInfo ("AK Arduino connected on " ++ port (chan w)) ]
                S1 S2 S3) as [T1 [T2 T3]].
    { intros k e H. few_events H k; split; intros; discriminate. }
    split; [exact T1|]. split; [exact T2|]. split; [exact T3|]. split.
    + intros h Ha. injection Ha as <-. rewrite length_app. cbn. lia.
    + intros h _ Ha. injection Ha as <-.
      split; [|split].
      * intros i Hc. pose proof (T3 i _ Hc) as Lt.
        destruct (nth_error_app_cases _ _ _ _ Hc) as [[Old _]|[k [-> New]]].
        -- cbn [opened_in ser_id] in Lt. lia.
        -- few_events New k.
      * cbn [opened_in ser_id]. rewrite nth_error_app2 by lia.
        now rewrite Nat.sub_diag.
      * cbn [opened_in ser_id]. rewrite nth_error_app2 by lia.
        replace (S (length (trace w)) - length (trace w))%nat with 1%nat by lia.
        reflexivity.
Qed.

Lemma flag_cases (w : World) :
  isConnected (chan w) = true \/ isConnected (chan w) = false.
Proof. destruct (isConnected (chan w)); [now left | now right]. Qed.

Lemma port_cases (w : World) :
  (exists h, arduino (chan w) = Some h) \/ arduino (chan w) = None.
Proof. destruct (arduino (chan w)) as [h|]; [left; now exists h | now right]. Qed.

Lemma discipline_send (data : PyValue) (w : World) :
  trace_discipline w -> trace_discipline (snd (akSendData env data w)).
Proof.
  intros [S1 [S2 [S3 [S4 S5]]]].
  assert (Quiet : forall w',
             w' = mkWorld (chan w) (trace w ++ [EvCall_akSendData data]) ->
             trace_discipline w').
  { intros w' ->. unfold trace_discipline. cbn [trace chan].
    destruct (discipline_trace_parts (trace w) [EvCall_akSendData data]
                S1 S2 S3) as [T1 [T2 T3]].
    { intros k e H. few_events H k; split; intros; discriminate. }
    split; [exact T1|]. split; [exact T2|]. split; [exact T3|]. split.
    - intros h Ha. pose proof (S4 h Ha). rewrite length_app. lia.
    - intros h Hc Ha. destruct (S5 h Hc Ha) as [N [O Sl]].
      split; [|split; now apply nth_error_old].
      intros i Hi.
      destruct (nth_error_app_cases _ _ _ _ Hi) as [[_ Old]|[k [_ New]]].
      + exact (N i Old).
      + few_events New k. }
  destruct (flag_cases w) as [Hc|Hc].
  - destruct (port_cases w) as [[h Ha]|Ha].
    + rewrite (akSendData_flag_on env data w h Hc Ha).
      destruct (S5 h Hc Ha) as [N [O Sl]].
      pose proof (S4 h Ha) as Lt.
      set (payload := bytes_utf8 (py_str data)).
      assert (Core : forall tail : list Event,
                 quiet tail ->
                 trace_discipline
                   (mkWorld (chan w)
                      (trace w ++ EvCall_akSendData data
                                  :: EvWrite h payload :: tail))).
      { intros tail Q. unfold trace_discipline. cbn [trace chan].
        split; [|split; [|split; [|split]]].
        - intros i h' p H.
          destruct (nth_error_app_cases _ _ _ _ H) as [[_ Old]|[k [-> New]]].
          + destruct (S1 i h' p Old) as [j [Lj [Oj Sj]]].
            exists j. split; [exact Lj|]. split; now apply nth_error_old.
          + destruct k as [|[|k]]; cbn [nth_error] in New.
            * discriminate New.
            * injection New as <- <-. exists (ser_id h).
              split; [lia|]. split; now apply nth_error_old.
            * exfalso. exact (proj1 (Q k _ New) h' p eq_refl).
        - intros i j h' p Hcl Hw.
          destruct (nth_error_app_cases _ _ _ _ Hcl) as [[Li OldC]|[k [-> NewC]]].
          + destruct (nth_error_app_cases _ _ _ _ Hw) as [[_ OldW]|[m [-> NewW]]].
            * exact (S2 i j h' p OldC OldW).
            * destruct m as [|[|m]]; cbn [nth_error] in NewW.
              -- discriminate NewW.
              -- injection NewW as <- <-. exfalso. exact (N i OldC).
              -- exfalso. exact (proj1 (Q m _ NewW) h' p eq_refl).
          + destruct k as [|[|k]]; cbn [nth_error] in NewC.
            * discriminate NewC.
            * discriminate NewC.
            * exfalso. exact (proj2 (Q k _ NewC) h' eq_refl).
        - intros i h' Hcl.
          destruct (nth_error_app_cases _ _ _ _ Hcl) as [[_ OldC]|[k [-> NewC]]].
          + exact (S3 i h' OldC).
          + destruct k as [|[|k]]; cbn [nth_error] in NewC.
            * discriminate NewC.
            * discriminate NewC.
            * exfalso. exact (proj2 (Q k _ NewC) h' eq_refl).
        - intros h' Ha'. pose proof (S4 h' Ha'). rewrite length_app. lia.
        - intros h' Hc' Ha'. destruct (S5 h' Hc' Ha') as [N' [O' Sl']].
          split; [|split; now apply nth_error_old].
          intros i Hi.
          destruct (nth_error_app_cases _ _ _ _ Hi) as [[_ Old]|[k [-> New]]].
          + exact (N' i Old).
          + destruct k as [|[|k]]; cbn [nth_error] in New.
            * discriminate New.
            * discriminate New.
            * exact (proj2 (Q k _ New) h' eq_refl). }
      destruct (write_outcome env _ h _) as [cause|]; cbn [snd]; apply Core.
      * intros k e H. few_events H k; split; intros; discriminate.
      * intros k e H. destruct k; discriminate H.
    + rewrite (akSendData_no_port env data w Ha). now apply Quiet.
  - rewrite (akSendData_flag_off env data w Hc). now apply Quiet.
Qed.

Lemma discipline_disconnect (w : World) :
  trace_discipline w -> trace_discipline (snd (ahmdDisconnect w)).
Proof.
  intros D. pose proof D as [S1 [S2 [S3 [S4 S5]]]].
  destruct (flag_cases w) as [Hc|Hc].
  - destruct (port_cases w) as [[h Ha]|Ha].
    + rewrite (ahmdDisconnect_flag_on w h Hc Ha). cbn [snd].
      pose proof (S4 h Ha) as Lt.
      unfold trace_discipline. cbn [trace chan arduino isConnected].
      split; [|split; [|split; [|split]]].
      * intros i h' p H.
        destruct (nth_error_app_cases _ _ _ _ H) as [[_ Old]|[k [-> New]]].
        -- destruct (S1 i h' p Old) as [j [Lj [Oj Sj]]].
           exists j. split; [exact Lj|]. split; now apply nth_error_old.
        -- few_events New k.
      * intros i j h' p Hcl Hw.
        destruct (nth_error_app_cases _ _ _ _ Hw) as [[Lj OldW]|[m [-> NewW]]].
        -- destruct (nth_error_app_cases _ _ _ _ Hcl) as [[_ OldC]|[k [-> _]]].
           ++ exact (S2 i j h' p OldC OldW).
           ++ lia.
        -- few_events NewW m.
      * intros i h' Hcl.
        destruct (nth_error_app_cases _ _ _ _ Hcl) as [[_ OldC]|[k [-> NewC]]].
        -- exact (S3 i h' OldC).
        -- few_events NewC k. lia.
      * intros h' Ha'. injection Ha' as <-. rewrite length_app. lia.
      * intros h' Hc'. discriminate Hc'.
    + unfold ahmdDisconnect, mbind, get_self, ret. rewrite Ha. exact D.
  - now rewrite (ahmdDisconnect_flag_off w Hc).
Qed.

Lemma discipline_init (p : string) (b t : Z) :
  trace_discipline (mkWorld (init p b t) []).
Proof.
  unfold trace_discipline. cbn [trace chan init arduino isConnected].
  split; [|split; [|split; [|split]]].
  - intros i h pl H. destruct i; discriminate H.
  - intros i j h pl H. destruct i; discriminate H.
  - intros i h H. destruct i; discriminate H.
  - intros h H. discriminate H.
  - intros h H. discriminate H.
Qed.

Lemma discipline_run_calls (calls : list Call) (w : World) :
  trace_discipline w -> trace_discipline (run_calls env calls w).
Proof.
  revert w. induction calls as [|c calls IH]; intros w D; [exact D|].
  cbn [run_calls fold_left]. apply IH.
  destruct c; cbn [run_call].
  - now apply discipline_connect.
  - now apply discipline_send.
  - now apply discipline_disconnect.
Qed.

End ChannelDiscipline.

(** Whatever calls are made on a newly constructed controller, and whatever
    the device does, every write in the trace comes after the opening of
    the port object written to and after the 2-second sleep that follows
    that opening. *)
Theorem writes_only_after_settle
        (env : Transport) (calls : list Call) (p : string) (b t : Z) :
  writes_after_settle (trace (run_calls env calls (mkWorld (init p b t) []))).
Proof.
  exact (proj1 (discipline_run_calls env calls _ (discipline_init p b t))).
Qed.

(** Whatever calls are made on a newly constructed controller, and whatever
    the device does, no write goes to a port object after that object was
    closed. *)
Theorem never_writes_to_closed_port
        (env : Transport) (calls : list Call) (p : string) (b t : Z) :
  no_write_after_close (trace (run_calls env calls (mkWorld (init p b t) []))).
Proof.
  exact (proj1 (proj2 (discipline_run_calls env calls _
                         (discipline_init p b t)))).
Qed.

(** [akSendData] changes no attribute of the controller, and it returns
    [True] exactly when the flag is set, there is a port object, and the
    device took the write; it writes once when flag and port object are
    there, and not at all otherwise. *)
Theorem send_true_iff_write_accepted
        (env : Transport) (data : PyValue) (w : World) :
  chan (snd (akSendData env data w)) = chan w
  /\ (fst (akSendData env data w) = Return true
      <-> exists h : Serial,
            isConnected (chan w) = true
            /\ arduino (chan w) = Some h
            /\ write_outcome env (trace w ++ [EvCall_akSendData data]) h
                             (bytes_utf8 (py_str data)) = None)
  /\ writes (events_since w (snd (akSendData env data w)))
     = if isConnected (chan w) && truthy (arduino (chan w))
       then [bytes_utf8 (py_str data)] else [].
Proof.
  destruct (flag_cases w) as [Hc|Hc].
  - destruct (port_cases w) as [[h Ha]|Ha].
    + rewrite (akSendData_flag_on env data w h Hc Ha), Hc, Ha.
      cbn [truthy andb].
      destruct (write_outcome env _ h _) as [cause|] eqn:E; cbn [fst snd chan];
        rewrite events_since_app;
        (split; [reflexivity|]); (split; [|reflexivity]).
      * split; [intros H; discriminate H|].
        intros [h' [_ [Eh Ew]]]. injection Eh as <-. congruence.
      * split; [|reflexivity]. intros _. exists h. now rewrite E.
    + rewrite (akSendData_no_port env data w Ha), Ha. cbn [fst snd chan truthy].
      rewrite events_since_app, andb_false_r.
      split; [reflexivity|]. split; [|reflexivity].
      split; [intros H; discriminate H|].
      intros [h [_ [Eh _]]]. discriminate Eh.
  - rewrite (akSendData_flag_off env data w Hc), Hc. cbn [fst snd chan andb].
    rewrite events_since_app.
    split; [reflexivity|]. split; [|reflexivity].
    split; [intros H; discriminate H|].
    intros [h [Eh _]]. discriminate Eh.
Qed.

(** A reconnect that is refused while a port is open clears the flag but
    keeps and does not close the port object; nor does a disconnect after
    it, which does nothing at all. *)
Theorem failed_reconnect_leaves_port_open
        (env : Transport) (w : World) (h : Serial) (cause : string) :
  isConnected (chan w) = true ->
  arduino (chan w) = Some h ->
  open_outcome env (trace w) (port (chan w)) (baud_rate (chan w))
               (timeout (chan w)) = Some cause ->
  arduino (chan (snd (ahmdConnect env w))) = Some h
  /\ isConnected (chan (snd (ahmdConnect env w))) = false
  /\ closes (events_since w (snd (ahmdConnect env w))) = []
  /\ ahmdDisconnect (snd (ahmdConnect env w))
     = (Return tt, snd (ahmdConnect env w)).
Proof.
  intros Hc Ha E. rewrite (ahmdConnect_refused env w cause E). cbn [snd].
  split; [exact Ha|]. split; [reflexivity|].
  split; [now rewrite events_since_app|].
  now apply ahmdDisconnect_flag_off.
Qed.

Lemma failed_reconnect_leaves_port_open_witness :
  isConnected (chan (connected device_opens_once)) = true
  /\ arduino (chan (connected device_opens_once)) = Some (opened_in fresh)
  /\ open_outcome device_opens_once (trace (connected device_opens_once))
                  "COM3" 9600 2 = Some "port busy"%string
  /\ arduino (chan (snd (ahmdConnect device_opens_once
                           (connected device_opens_once))))
     = Some (opened_in fresh)
  /\ closes (trace (snd (ahmdDisconnect
                           (snd (ahmdConnect device_opens_once
                                   (connected device_opens_once))))))
     = [].
Proof.
  split; [reflexivity|]. split; [reflexivity|]. split; [reflexivity|].
  destruct (failed_reconnect_leaves_port_open device_opens_once
              (connected device_opens_once) (opened_in fresh)
              "port busy"%string eq_refl eq_refl eq_refl)
    as [Kept [_ [_ Nothing]]].
  split; [exact Kept|].
  rewrite Nothing. reflexivity.
Defined.

(* ------------------------------------------------------------------ *)
(** ** The main loop *)

Section EventLists.

Lemma send_calls_app (a b : list Event) :
  send_calls (a ++ b) = send_calls a ++ send_calls b.
Proof.
  induction a as [|e a IH]; [reflexivity|].
  destruct e; cbn [app send_calls]; now rewrite IH.
Qed.

Lemma writes_app (a b : list Event) : writes (a ++ b) = writes a ++ writes b.
Proof.
  induction a as [|e a IH]; [reflexivity|].
  destruct e; cbn [app writes]; now rewrite IH.
Qed.

Lemma closes_app (a b : list Event) : closes (a ++ b) = closes a ++ closes b.
Proof.
  induction a as [|e a IH]; [reflexivity|].
  destruct e; cbn [app closes]; now rewrite IH.
Qed.

Lemma opens_app (a b : list Event) : opens (a ++ b) = opens a ++ opens b.
Proof.
  induction a as [|e a IH]; [reflexivity|].
  destruct e; cbn [app opens]; now rewrite IH.
Qed.

Lemma releases_app {Frame} (a b : list (UiEvent Frame)) :
  releases (a ++ b) = (releases a + releases b)%nat.
Proof.
  induction a as [|e a IH]; [reflexivity|].
  destruct e; cbn [app releases]; rewrite IH; reflexivity.
Qed.

Lemma window_teardowns_app {Frame} (a b : list (UiEvent Frame)) :
  window_teardowns (a ++ b) = (window_teardowns a + window_teardowns b)%nat.
Proof.
  induction a as [|e a IH]; [reflexivity|].
  destruct e; cbn [app window_teardowns]; rewrite IH; reflexivity.
Qed.

Lemma shown_frames_app {Frame} (a b : list (UiEvent Frame)) :
  shown_frames (a ++ b) = shown_frames a ++ shown_frames b.
Proof.
  induction a as [|e a IH]; [reflexivity|].
  destruct e; cbn [app shown_frames]; now rewrite IH.
Qed.

Lemma grows_by_refl {Frame} (g : Gesture Frame) : grows_by g g [] 0.
Proof.
  unfold grows_by. repeat (split; [reflexivity|]).
  exists [], []. rewrite !app_nil_r.
  repeat split. now destruct (isConnected (chan (arduino_world g))).
Qed.

Lemma grows_by_trans {Frame} (g1 g2 g3 : Gesture Frame)
      (s1 s2 : list PyValue) (n1 n2 : nat) :
  grows_by g1 g2 s1 n1 -> grows_by g2 g3 s2 n2 ->
  grows_by g1 g3 (s1 ++ s2) (n1 + n2).
Proof.
  intros (C1 & R1 & K1 & e1 & u1 & T1 & U1 & S1 & Q1 & Cl1 & O1 & Re1 & W1 & Sh1)
         (C2 & R2 & K2 & e2 & u2 & T2 & U2 & S2 & Q2 & Cl2 & O2 & Re2 & W2 & Sh2).
  unfold grows_by.
  split; [congruence|]. split; [congruence|]. split; [congruence|].
  exists (e1 ++ e2), (u1 ++ u2).
  rewrite T2, T1, U2, U1, !app_assoc.
  split; [reflexivity|]. split; [reflexivity|].
  rewrite send_calls_app, closes_app, opens_app, releases_app,
    window_teardowns_app, shown_frames_app, length_app.
  rewrite S1, S2, K1, Cl1, Cl2, O1, O2, Re1, Re2, W1, W2, Sh1, Sh2.
  split; [now destruct (isConnected (chan (arduino_world g1)))|].
  split; [|repeat split].
  intros Off. rewrite (Q1 Off). rewrite K1 in Q2. now rewrite (Q2 Off).
Qed.

End EventLists.

Section AppFacts.

Variable Frame : Type.
Variable PyFloat : Type.
Variable cv2_flip : Frame -> Z -> Frame.
Variable multi_hand_landmarks : Frame -> list (list (PyFloat * PyFloat)).
Variable shape : Frame -> Z * Z.
Variable int_of_scaled : PyFloat -> Z -> Z.
Variable ahmdDrawLandmarks : Frame -> list (PyFloat * PyFloat) -> Frame.
Variable cv2_putText : Frame -> string -> Z * Z -> Frame.
Variable env : Transport.
Variable cfg : AKConfigManager.
Variable cleanup_fault : CleanupFault.

Local Abbreviation detect :=
  (akDetectHands Frame PyFloat multi_hand_landmarks shape int_of_scaled
                 ahmdDrawLandmarks).
Local Abbreviation process :=
  (ahmdProcessFrame Frame PyFloat cv2_flip multi_hand_landmarks shape
                    int_of_scaled ahmdDrawLandmarks env).
Local Abbreviation seen :=
  (first_hand Frame PyFloat cv2_flip multi_hand_landmarks shape int_of_scaled
              ahmdDrawLandmarks).
Local Abbreviation sends :=
  (counts_to_send Frame PyFloat cv2_flip multi_hand_landmarks shape
                  int_of_scaled ahmdDrawLandmarks).
Local Abbreviation process_step :=
  (process_in Frame PyFloat cv2_flip multi_hand_landmarks shape
              int_of_scaled ahmdDrawLandmarks env).
Local Abbreviation show := (draw_and_show Frame cv2_putText cfg).
Local Abbreviation body :=
  (loop_body Frame PyFloat cv2_flip multi_hand_landmarks shape
             int_of_scaled ahmdDrawLandmarks cv2_putText env cfg).
Local Abbreviation loop :=
  (while_running Frame PyFloat cv2_flip multi_hand_landmarks shape
                 int_of_scaled ahmdDrawLandmarks cv2_putText env cfg).
Local Abbreviation run :=
  (ahmdRunMainLoop Frame PyFloat cv2_flip multi_hand_landmarks shape
                   int_of_scaled ahmdDrawLandmarks cv2_putText env cfg
                   cleanup_fault).
Local Abbreviation ending := (run_end_of cleanup_fault).

(** The value sent for one frame, if any. *)
Local Abbreviation sent_for frame :=
  (match seen frame with
   | Some hand => [PyInt (count_of hand)]
   | None => []
   end).

Lemma akSendData_events (data : PyValue) (w : World) :
  exists (b : bool) (evs : list Event),
    akSendData env data w
    = (Return b, mkWorld (chan w) (trace w ++ EvCall_akSendData data :: evs))
    /\ send_calls evs = [] /\ closes evs = [] /\ opens evs = [].
Proof.
  destruct (flag_cases w) as [Hc|Hc].
  - destruct (port_cases w) as [[h Ha]|Ha].
    + rewrite (akSendData_flag_on env data w h Hc Ha).
      destruct (write_outcome env _ h _) as [cause|];
        eexists; eexists; (split; [reflexivity|]); repeat split.
    + rewrite (akSendData_no_port env data w Ha).
      exists false, []. repeat split.
  - rewrite (akSendData_flag_off env data w Hc).
    exists false, []. repeat split.
Qed.

Lemma process_grows (frame : Frame) (w : World) :
  exists (image : Frame) (n : Z) (evs : list Event),
    process frame w = (Return (image, n), mkWorld (chan w) (trace w ++ evs))
    /\ send_calls evs = (if isConnected (chan w) then sent_for frame else [])
    /\ (isConnected (chan w) = false -> evs = [])
    /\ closes evs = [] /\ opens evs = [].
Proof.
  assert (Same : w = mkWorld (chan w) (trace w ++ []))
    by (destruct w; cbn [chan trace]; now rewrite app_nil_r).
  unfold first_hand.
  destruct (snd (detect (cv2_flip frame 1))) as [|hand rest] eqn:H.
  - exists (fst (detect (cv2_flip frame 1))), 0, [].
    rewrite (ahmdProcessFrame_no_hand _ _ _ _ _ _ _ env frame w H).
    cbn [hd_error]. rewrite <- Same.
    repeat split. now destruct (isConnected (chan w)).
  - destruct (akCountFingers_returns hand) as [n [Hn _]].
    rewrite (ahmdProcessFrame_hand _ _ _ _ _ _ _ env frame w hand rest n H Hn).
    cbn [hd_error]. unfold count_of. rewrite Hn.
    destruct (flag_cases w) as [Hc|Hc]; rewrite Hc.
    + destruct (akSendData_events (PyInt n) w) as (b & evs & E & S & C & O).
      exists (fst (detect (cv2_flip frame 1))), n,
             (EvCall_akSendData (PyInt n) :: evs).
      rewrite E. cbn [snd send_calls closes opens]. rewrite S.
      repeat split; try assumption. intros Off. discriminate Off.
    + exists (fst (detect (cv2_flip frame 1))), n, [].
      rewrite <- Same. repeat split.
Qed.

Lemma process_step_grows (frame : Frame) (g : Gesture Frame) :
  exists (processed : Frame * Z) (g' : Gesture Frame),
    process_step frame g = (inr processed, g')
    /\ grows_by g g' (sent_for frame) 0.
Proof.
  destruct (process_grows frame (arduino_world g))
    as (image & n & evs & E & S & Q & C & O).
  unfold process_in. rewrite E.
  eexists. eexists. split; [reflexivity|].
  unfold grows_by. cbn [camera running arduino_world ui chan trace].
  repeat (split; [reflexivity|]).
  exists evs, []. rewrite app_nil_r. repeat split; assumption.
Qed.

Lemma show_grows (processed : Frame * Z) (now : string) (g : Gesture Frame) :
  grows_by g (show processed now g) [] 1.
Proof.
  unfold grows_by, draw_and_show, ui_emit.
  cbn [camera running arduino_world ui].
  repeat (split; [reflexivity|]).
  eexists [], [_]. rewrite app_nil_r. repeat split.
  now destruct (isConnected (chan (arduino_world g))).
Qed.

Lemma body_grows (t : Tick Frame) (g : Gesture Frame) :
  exists g' : Gesture Frame,
    body t g
    = (match t with
       | ReadFails => Break
       | ReadRaises e => Throw e
       | DetectRaises e => Throw e
       | ShowRaises _ _ e => Throw e
       | Shows _ _ key => if esc_pressed key then Break else Continue
       | KeyRaises _ _ e => Throw e
       end, g')
    /\ grows_by g g' (sends [t]) (if shows_frame t then 1 else 0).
Proof.
  assert (Shown : forall frame now g1,
             grows_by g g1 (sent_for frame) 0 ->
             forall processed,
               grows_by g (show processed now g1) (sent_for frame) 1).
  { intros frame now g1 G processed.
    pose proof (grows_by_trans g g1 _ _ _ _ _ G (show_grows processed now g1))
      as T.
    now rewrite app_nil_r in T. }
  destruct t as [|e|e|frame now e|frame now key|frame now e];
    cbn [loop_body counts_to_send shows_frame].
  - eexists. split; [reflexivity|].
    unfold grows_by, ui_emit. cbn [camera running arduino_world ui].
    repeat (split; [reflexivity|]).
    exists [], [UiLogError "AHMD failed to read from camera"].
    rewrite app_nil_r. repeat split.
    now destruct (isConnected (chan (arduino_world g))).
  - exists g. split; [reflexivity | apply grows_by_refl].
  - exists g. split; [reflexivity | apply grows_by_refl].
  - destruct (process_step_grows frame g) as (processed & g1 & E & G).
    rewrite E. exists g1. split; [reflexivity|].
    now destruct (seen frame).
  - destruct (process_step_grows frame g) as (processed & g1 & E & G).
    rewrite E. eexists. split; [reflexivity|].
    pose proof (Shown frame now g1 G processed) as T.
    now destruct (seen frame).
  - destruct (process_step_grows frame g) as (processed & g1 & E & G).
    rewrite E. eexists. split; [reflexivity|].
    pose proof (Shown frame now g1 G processed) as T.
    now destruct (seen frame).
Qed.

Lemma sends_cons (t : Tick Frame) (ticks : list (Tick Frame)) :
  sends (t :: ticks) = sends [t] ++ sends ticks.
Proof.
  destruct t as [|e|e|frame now e|frame now key|frame now e];
    cbn [counts_to_send app]; try reflexivity; now destruct (seen frame).
Qed.

Lemma loop_grows (ticks : list (Tick Frame)) :
  forall g : Gesture Frame,
    running g = true ->
    exists g' : Gesture Frame,
      loop ticks g = (loop_end_of ticks, g')
      /\ grows_by g g' (sends (until_stop ticks))
                  (length (filter shows_frame (until_stop ticks))).
Proof.
  induction ticks as [|t ticks IH]; intros g Run.
  - exists g. cbn [while_running loop_end_of until_stop]. rewrite Run.
    split; [reflexivity | apply grows_by_refl].
  - cbn [while_running]. rewrite Run. cbn [negb].
    destruct (body_grows t g) as [g1 [E G1]]. rewrite E.
    assert (One : grows_by g g1 (sends [t] ++ [])
                           ((if shows_frame t then 1 else 0) + 0))
      by (rewrite app_nil_r, Nat.add_0_r; exact G1).
    assert (Len1 : length (filter shows_frame [t])
                   = (if shows_frame t then 1 else 0)%nat)
      by (cbn [filter]; now destruct (shows_frame t)).
    destruct t as [|e|e|frame now e|frame now key|frame now e];
      cbn [loop_end_of until_stop stops];
      try (exists g1; split; [reflexivity|];
           rewrite app_nil_r, Nat.add_0_r in One; rewrite Len1; exact One).
    destruct (esc_pressed key).
    + exists g1. split; [reflexivity|].
      rewrite app_nil_r, Nat.add_0_r in One. rewrite Len1. exact One.
    + assert (Run1 : running g1 = true)
        by (destruct G1 as (_ & R & _); congruence).
      destruct (IH g1 Run1) as [g2 [E2 G2]].
      exists g2. split; [exact E2|].
      rewrite sends_cons. cbn [filter shows_frame length].
      exact (grows_by_trans g g1 g2 _ _ 1 _ G1 G2).
Qed.


Lemma ahmdDisconnect_returns (w : World) :
  fst (ahmdDisconnect w) = Return tt.
Proof.
  destruct (flag_cases w) as [Hc|Hc].
  - destruct (port_cases w) as [[h Ha]|Ha].
    + now rewrite (ahmdDisconnect_flag_on w h Hc Ha).
    + unfold ahmdDisconnect, mbind, get_self, ret. now rewrite Ha.
  - now rewrite (ahmdDisconnect_flag_off w Hc).
Qed.

(** The [finally] clause with a capture object at hand: release, window
    teardown, disconnect and log, unless one of the two library calls
    raises, which ends it there. *)
Lemma finally_cleanup_eq (pending : option LoopExn) (g : Gesture Frame)
      (opened : bool) :
  camera g = Some opened ->
  finally_cleanup cleanup_fault pending g
  = match cleanup_fault with
    | CleanupFine =>
        (match pending with
         | Some e => Propagated e
         | None => Returned
         end,
         mkGesture (snd (ahmdDisconnect (arduino_world g))) (camera g)
                   (running g)
                   (ui g ++ [ UiRelease; UiDestroyAllWindows;
                              UiLogInfo "AK cleanup completed" ]))
    | ReleaseRaises e => (Propagated e, g)
    | TeardownRaises e => (Propagated e, ui_emit UiRelease g)
    end.
Proof.
  destruct g as [w cam rn u]. cbn [camera]. intros ->.
  unfold finally_cleanup, akCleanupResources, ui_emit.
  cbn [arduino_world camera running ui].
  pose proof (ahmdDisconnect_returns w) as R.
  case cleanup_fault; [|reflexivity|reflexivity].
  destruct (ahmdDisconnect w) as [o w']. cbn [fst] in R. subst o.
  cbn [snd app]. rewrite <- ?app_assoc. now destruct pending.
Qed.

Lemma grows_by_shape (g g' : Gesture Frame) (sent : list PyValue) (shown : nat) :
  grows_by g g' sent shown ->
  exists (evs : list Event) (uevs : list (UiEvent Frame)),
    g' = mkGesture (mkWorld (chan (arduino_world g))
                            (trace (arduino_world g) ++ evs))
                   (camera g) (running g) (ui g ++ uevs)
    /\ send_calls evs
       = (if isConnected (chan (arduino_world g)) then sent else [])
    /\ (isConnected (chan (arduino_world g)) = false -> evs = [])
    /\ closes evs = [] /\ opens evs = []
    /\ releases uevs = 0%nat /\ window_teardowns uevs = 0%nat
    /\ length (shown_frames uevs) = shown.
Proof.
  intros (C & R & K & evs & uevs & T & U & S & Q & Cl & O & Re & W & Sh).
  exists evs, uevs. split; [|repeat split; assumption].
  destruct g' as [[c' tr'] cam' rn' u'].
  cbn [camera running arduino_world ui chan trace] in *. congruence.
Qed.

(** The whole run with a camera that opens, from a newly constructed
    controller: how it ends, and the state it ends in. *)
Lemma run_opened_final (ticks : list (Tick Frame)) (p : string) (b t : Z) :
  exists (evs : list Event) (uevs : list (UiEvent Frame)),
    send_calls evs
    = (if isConnected (chan (snd (ahmdConnect env (mkWorld (init p b t) []))))
       then sends (until_stop ticks) else [])
    /\ (isConnected (chan (snd (ahmdConnect env (mkWorld (init p b t) []))))
        = false -> evs = [])
    /\ closes evs = [] /\ opens evs = []
    /\ releases uevs = 0%nat /\ window_teardowns uevs = 0%nat
    /\ length (shown_frames uevs)
       = length (filter shows_frame (until_stop ticks))
    /\ run CamOpened ticks (new_gesture Frame p b t)
       = (ending (loop_end_of ticks),
          match loop_end_of ticks with
          | Pending =>
              mkGesture
                (mkWorld
                   (chan (snd (ahmdConnect env (mkWorld (init p b t) []))))
                   (trace (snd (ahmdConnect env (mkWorld (init p b t) [])))
                    ++ evs))
                (Some true) true uevs
          | _ =>
              match cleanup_fault with
              | CleanupFine =>
                  mkGesture
                    (snd (ahmdDisconnect
                            (mkWorld
                               (chan (snd (ahmdConnect env
                                             (mkWorld (init p b t) []))))
                               (trace (snd (ahmdConnect env
                                              (mkWorld (init p b t) [])))
                                ++ evs))))
                    (Some true) true
                    (uevs ++ [ UiRelease; UiDestroyAllWindows;
                               UiLogInfo "AK cleanup completed" ])
              | ReleaseRaises _ =>
                  mkGesture
                    (mkWorld
                       (chan (snd (ahmdConnect env (mkWorld (init p b t) []))))
                       (trace (snd (ahmdConnect env (mkWorld (init p b t) [])))
                        ++ evs))
                    (Some true) true uevs
              | TeardownRaises _ =>
                  mkGesture
                    (mkWorld
                       (chan (snd (ahmdConnect env (mkWorld (init p b t) []))))
                       (trace (snd (ahmdConnect env (mkWorld (init p b t) [])))
                        ++ evs))
                    (Some true) true (uevs ++ [UiRelease])
              end
          end).
Proof.
  unfold ahmdRunMainLoop, ahmdInitializeCamera, new_gesture, ui_emit.
  cbn [arduino_world camera running ui app].
  assert (Conn : exists okc : bool,
             ahmdConnect env (mkWorld (init p b t) [])
             = (Return okc, snd (ahmdConnect env (mkWorld (init p b t) [])))).
  { destruct (open_outcome env (trace (mkWorld (init p b t) []))
                (port (chan (mkWorld (init p b t) [])))
                (baud_rate (chan (mkWorld (init p b t) [])))
                (timeout (chan (mkWorld (init p b t) [])))) as [cause|] eqn:E.
    - rewrite (ahmdConnect_refused env _ cause E). now eexists.
    - rewrite (ahmdConnect_opened env _ E). now eexists. }
  destruct Conn as [okc Conn].
  set (wc := snd (ahmdConnect env (mkWorld (init p b t) []))) in *.
  rewrite Conn.
  match goal with
  | |- context [loop ticks ?g5] =>
      destruct (loop_grows ticks g5) as [g6 [E6 G6]];
        [reflexivity | rewrite E6];
        destruct (grows_by_shape g5 g6 _ _ G6)
          as (evs & uevs & -> & S & Q & Cl & O & Re & W & Sh)
  end.
  cbn [arduino_world camera running ui chan trace] in *.
  assert (World : forall g : Gesture Frame,
             arduino_world
               (if okc then g
                else ui_emit (UiPrint "AK continuing in camera-only mode...")
                       (ui_emit
                          (UiPrint
                             ("AHMD Warning: Could not connect to Arduino on "
                              ++ value_str (ahmdGetConfig cfg "serial_port")))
                          g))
             = arduino_world g) by (intros g; now destruct okc).
  assert (Cam : forall g : Gesture Frame,
             camera
               (if okc then g
                else ui_emit (UiPrint "AK continuing in camera-only mode...")
                       (ui_emit
                          (UiPrint
                             ("AHMD Warning: Could not connect to Arduino on "
                              ++ value_str (ahmdGetConfig cfg "serial_port")))
                          g))
             = camera g) by (intros g; now destruct okc).
  unfold ui_emit in World, Cam. rewrite World, Cam in *.
  cbn [arduino_world camera running ui chan trace] in *.
  match goal with
  | |- context [mkGesture _ (Some true) true (?pre ++ uevs)] =>
      set (start := pre) in *
  end.
  assert (Quiet : releases start = 0%nat /\ window_teardowns start = 0%nat
                  /\ shown_frames start = [])
    by (subst start; destruct okc; repeat split).
  destruct Quiet as (QR & QW & QS).
  unfold run_end_of.
  destruct (loop_end_of ticks) as [| |[|msg|]];
    repeat match goal with
           | |- context [finally_cleanup _ ?pending ?g] =>
               rewrite (finally_cleanup_eq pending g true eq_refl)
           end;
    unfold ui_emit; cbn [arduino_world camera running ui];
    case cleanup_fault; intros;
    eexists evs, _;
    (split; [exact S|]); (split; [exact Q|]); (split; [exact Cl|]);
    (split; [exact O|]);
    (split; [|split; [|split; [|reflexivity]]]).
  all: rewrite ?releases_app, ?window_teardowns_app, ?shown_frames_app,
         ?QR, ?QW, ?QS, ?Re, ?W;
       cbn [app releases window_teardowns shown_frames Nat.add];
       rewrite ?app_nil_r; try reflexivity; exact Sh.
Qed.

Ltac disconnect_on h :=
  match goal with
  | |- context [ahmdDisconnect ?W] =>
      rewrite (ahmdDisconnect_flag_on W h eq_refl eq_refl)
  end.

Ltac disconnect_off :=
  match goal with
  | |- context [ahmdDisconnect ?W] =>
      rewrite (ahmdDisconnect_flag_off W eq_refl)
  end.

Lemma connect_fresh_cases (p : string) (b t : Z) :
  (open_outcome env [] p b t = None
   /\ snd (ahmdConnect env (mkWorld (init p b t) []))
      = mkWorld (mkController p b t (Some (mkSerial 0 p b t)) true)
                [ EvOpened (mkSerial 0 p b t); EvSleep 2;
                  EvLogInfo ("AK Arduino connected on " ++ p) ])
  \/ (exists cause : string,
        open_outcome env [] p b t = Some cause
        /\ snd (ahmdConnect env (mkWorld (init p b t) []))
           = mkWorld (mkController p b t None false)
                     [ EvOpenFailed p cause;
                       EvLogError ("AHMD Arduino connection failed: "
                                   ++ cause) ]).
Proof.
  destruct (open_outcome env [] p b t) as [cause|] eqn:E.
  - right. exists cause. split; [reflexivity|].
    now rewrite (ahmdConnect_refused env (mkWorld (init p b t) []) cause E).
  - left. split; [reflexivity|].
    now rewrite (ahmdConnect_opened env (mkWorld (init p b t) []) E).
Qed.




(** What is sent during a run follows the frames.  If the port opened at
    the start, [akSendData] is called once for every frame read that shows
    a hand, in order, with the finger count of the first hand in the
    flipped frame, up to the tick that ends the loop.  If the port did not
    open, [akSendData] is never called and nothing is ever written. *)
Theorem run_sends_one_count_per_hand_frame
        (ticks : list (Tick Frame)) (p : string) (b t : Z) :
  match open_outcome env [] p b t with
  | None =>
      send_calls (trace (arduino_world
                           (snd (run CamOpened ticks (new_gesture Frame p b t)))))
      = sends (until_stop ticks)
  | Some _ =>
      send_calls (trace (arduino_world
                           (snd (run CamOpened ticks (new_gesture Frame p b t)))))
      = []
      /\ writes (trace (arduino_world
                          (snd (run CamOpened ticks (new_gesture Frame p b t)))))
         = []
  end.
Proof.
  destruct (run_opened_final ticks p b t)
    as (evs & uevs & S & Q & _ & _ & _ & _ & _ & E).
  rewrite E. cbn [snd].
  destruct (connect_fresh_cases p b t) as [[Op C]|[cause [Op C]]];
    rewrite Op; rewrite C in *; cbn [chan trace isConnected] in *.
  - destruct (loop_end_of ticks); case cleanup_fault; intros;
      cbn [arduino_world trace];
      try disconnect_on (mkSerial 0 p b t);
      cbn [snd trace]; rewrite !send_calls_app, S; cbn [send_calls app];
      now rewrite ?app_nil_r.
  - rewrite (Q eq_refl).
    destruct (loop_end_of ticks); case cleanup_fault; intros;
      cbn [arduino_world trace];
      try disconnect_off; now split.
Qed.

(** A camera that cannot be had ends the run at once: whether
    [cv2.VideoCapture] raises or gives a capture that is not opened, the
    controller logs and prints the failure and returns; the port is not
    opened, the loop is not entered, and no shutdown is done, so that a
    capture object that was obtained is not released. *)
Theorem camera_failure_ends_run_before_connect
        (ticks : list (Tick Frame)) (g : Gesture Frame) :
  (forall msg : string,
     run (CamRaises msg) ticks g
     = (Returned,
        mkGesture (arduino_world g) (camera g) (running g)
                  (ui g ++ [ UiVideoCapture (ahmdGetConfig cfg "camera_index");
                             UiLogError ("AHMD camera error: " ++ msg);
                             UiPrint "AK Error: Could not initialize camera" ])))
  /\ run CamNotOpened ticks g
     = (Returned,
        mkGesture (arduino_world g) (Some false) (running g)
                  (ui g ++ [ UiVideoCapture (ahmdGetConfig cfg "camera_index");
                             UiLogError "AHMD camera initialization failed";
                             UiPrint "AK Error: Could not initialize camera" ])).
Proof.
  split; [intros msg|];
    unfold ahmdRunMainLoop, ahmdInitializeCamera, ui_emit;
    cbn [arduino_world camera running ui]; now rewrite <- !app_assoc.
Qed.

(** Processing a frame leaves the connection as it is: no attribute of
    the controller changes, no port is opened or closed, the trace only
    grows, and with the flag cleared nothing is added to it at all. *)
Theorem process_frame_keeps_connection (frame : Frame) (w : World) :
  chan (snd (process frame w)) = chan w
  /\ (exists evs : list Event,
        trace (snd (process frame w)) = trace w ++ evs
        /\ opens evs = [] /\ closes evs = [])
  /\ (if isConnected (chan w) then True else snd (process frame w) = w).
Proof.
  destruct (process_grows frame w) as (image & n & evs & E & S & Q & C & O).
  rewrite E. cbn [snd chan trace].
  split; [reflexivity|]. split.
  - exists evs. split; [reflexivity|]. split; [exact O | exact C].
  - destruct (isConnected (chan w)); [exact I|].
    rewrite (Q eq_refl), app_nil_r. now destruct w.
Qed.

End AppFacts.

(* ------------------------------------------------------------------ *)
(** ** The configuration *)

Section ConfigFacts.

Lemma dict_get_set_same (d : dict) (k : string) (v : Value) :
  dict_get (dict_set d k v) k = Some v.
Proof.
  induction d as [|[k' v'] d IH]; cbn [dict_set dict_get].
  - now rewrite String.eqb_refl.
  - destruct (String.eqb k k') eqn:E; cbn [dict_get]; rewrite E;
      [reflexivity | exact IH].
Qed.

Lemma dict_get_set_other (d : dict) (k k' : string) (v : Value) :
  k <> k' -> dict_get (dict_set d k' v) k = dict_get d k.
Proof.
  intros Ne. induction d as [|[k0 v0] d IH]; cbn [dict_set dict_get].
  - now rewrite (proj2 (String.eqb_neq k k') Ne).
  - destruct (String.eqb k' k0) eqn:E; cbn [dict_get].
    + apply String.eqb_eq in E. subst k0.
      now rewrite (proj2 (String.eqb_neq k k') Ne).
    + now rewrite IH.
Qed.

Lemma dict_get_set (d : dict) (k k' : string) (v : Value) :
  dict_get (dict_set d k' v) k
  = if String.eqb k k' then Some v else dict_get d k.
Proof.
  destruct (String.eqb k k') eqn:E.
  - apply String.eqb_eq in E. subst k'. apply dict_get_set_same.
  - apply dict_get_set_other. now apply String.eqb_neq.
Qed.

Lemma dict_get_app (a b : dict) (k : string) :
  dict_get (a ++ b) k
  = match dict_get a k with
    | Some v => Some v
    | None => dict_get b k
    end.
Proof.
  induction a as [|[k' v'] a IH]; [reflexivity|].
  cbn [app dict_get]. now destruct (String.eqb k k').
Qed.

Lemma dict_get_merge (b : list (string * Value)) :
  forall (a : dict) (k : string),
    dict_get (dict_merge a b) k
    = match last_binding b k with
      | Some v => Some v
      | None => dict_get a k
      end.
Proof.
  unfold last_binding.
  induction b as [|[k1 v1] b IH]; intros a k; [reflexivity|].
  cbn [dict_merge fold_left fst snd rev].
  change (fold_left (fun acc kv => dict_set acc (fst kv) (snd kv)) b
                    (dict_set a k1 v1))
    with (dict_merge (dict_set a k1 v1) b).
  rewrite IH, dict_get_app, dict_get_set. cbn [dict_get].
  now destruct (dict_get (rev b) k), (String.eqb k k1).
Qed.

Lemma dict_get_absent (d : dict) (k : string) :
  ~ In k (map fst d) -> dict_get d k = None.
Proof.
  induction d as [|[k' v'] d IH]; intros N; [reflexivity|].
  cbn [dict_get]. destruct (String.eqb k k') eqn:E.
  - apply String.eqb_eq in E. subst k'. exfalso. apply N. now left.
  - apply IH. intros H. apply N. now right.
Qed.

Lemma keys_dict_set (d : dict) (k : string) (v : Value) (k0 : string) :
  In k0 (map fst (dict_set d k v)) -> k0 = k \/ In k0 (map fst d).
Proof.
  induction d as [|[k' v'] d IH]; cbn [dict_set map fst In].
  - intros [H|[]]. now left.
  - destruct (String.eqb k k') eqn:E; cbn [map fst In].
    + intros [H|H]; right; [now left | now right].
    + intros [H|H]; [right; now left|].
      destruct (IH H) as [H'|H']; [now left | right; now right].
Qed.

Lemma NoDup_dict_set (d : dict) (k : string) (v : Value) :
  NoDup (map fst d) -> NoDup (map fst (dict_set d k v)).
Proof.
  induction d as [|[k' v'] d IH]; intros N; cbn [dict_set map fst].
  - constructor; [intros [] | constructor].
  - inversion N as [|x l Nin N' Eq]; subst.
    destruct (String.eqb k k') eqn:E; cbn [map fst].
    + now constructor.
    + constructor; [|now apply IH].
      intros H. destruct (keys_dict_set d k v k' H) as [H'|H'].
      * subst k'. now rewrite String.eqb_refl in E.
      * now apply Nin.
Qed.

Lemma NoDup_dict_merge (b : list (string * Value)) :
  forall a : dict, NoDup (map fst a) -> NoDup (map fst (dict_merge a b)).
Proof.
  induction b as [|[k v] b IH]; intros a N; [exact N|].
  cbn [dict_merge fold_left fst snd]. apply IH. now apply NoDup_dict_set.
Qed.

(** In a dict, whose keys are all different, the last binding of a key
    among the items is the binding. *)
Lemma last_binding_dict (d : dict) (k : string) :
  NoDup (map fst d) -> last_binding d k = dict_get d k.
Proof.
  unfold last_binding.
  induction d as [|[k' v'] d IH]; intros N; [reflexivity|].
  inversion N as [|x l Nin N' Eq]; subst.
  cbn [rev]. rewrite dict_get_app, (IH N'). cbn [dict_get].
  destruct (String.eqb k k') eqn:E.
  - apply String.eqb_eq in E. subst k'. now rewrite (dict_get_absent d k Nin).
  - now destruct (dict_get d k).
Qed.

Lemma NoDup_defaults : NoDup (map fst akDefaultConfig).
Proof.
  cbn [akDefaultConfig map fst].
  repeat (constructor;
          [cbn [In]; intros H;
           repeat (destruct H as [H|H]; [discriminate H|]); exact H|]).
  constructor.
Qed.

(** What [ahmdLoadConfig] returns for a file holding a JSON object. *)
Lemma loaded_get (members : list (string * Value)) (k : string) :
  dict_get (dict_merge akDefaultConfig (json_dict members)) k
  = match last_binding members k with
    | Some v => Some v
    | None => dict_get akDefaultConfig k
    end.
Proof.
  rewrite dict_get_merge.
  rewrite last_binding_dict
    by (apply NoDup_dict_merge; constructor).
  unfold json_dict. rewrite dict_get_merge. cbn [dict_get].
  now destruct (last_binding members k).
Qed.

Lemma overridden_get (args : Args) (d : dict) (k : string) :
  dict_get (overridden args d) k
  = if (String.eqb k "debug_mode" && arg_debug args)%bool then Some (VBool true)
    else match arg_camera args with
         | Some c =>
             if String.eqb k "camera_index" then Some (VInt c)
             else match port_given (arg_port args) with
                  | Some p =>
                      if String.eqb k "serial_port" then Some (VStr p)
                      else dict_get d k
                  | None => dict_get d k
                  end
         | None =>
             match port_given (arg_port args) with
             | Some p =>
                 if String.eqb k "serial_port" then Some (VStr p)
                 else dict_get d k
             | None => dict_get d k
             end
         end.
Proof.
  unfold overridden.
  destruct (arg_debug args), (arg_camera args) as [c|],
           (port_given (arg_port args)) as [p|];
    rewrite ?dict_get_set, ?andb_true_r, ?andb_false_r;
    repeat match goal with
           | |- context [String.eqb k ?s] => destruct (String.eqb k s)
           end; reflexivity.
Qed.

Lemma NoDup_overridden (args : Args) (d : dict) :
  NoDup (map fst d) -> NoDup (map fst (overridden args d)).
Proof.
  intros N. unfold overridden.
  destruct (arg_debug args), (arg_camera args), (port_given (arg_port args));
    repeat apply NoDup_dict_set; exact N.
Qed.

End ConfigFacts.

(** A configuration file holding a JSON object is laid over the defaults:
    the file stays as it is, a key the file gives has the file's value (the
    last one, should the file give it twice), and every other key has its
    default, so that no default key is ever missing. *)
Theorem load_lays_file_over_defaults
        (self : AKConfigManager) (fs : Files) (members : list (string * Value)) :
  fs (config_file self) = Some (JsonObject members) ->
  exists d : dict,
    ahmdLoadConfig self fs = (Ok d, fs)
    /\ (forall k : string,
          dict_get d k
          = match last_binding members k with
            | Some v => Some v
            | None => dict_get akDefaultConfig k
            end)
    /\ (forall k : string,
          In k (map fst akDefaultConfig) -> dict_get d k <> None).
Proof.
  intros H. unfold ahmdLoadConfig. rewrite H.
  eexists. split; [reflexivity|]. split.
  - apply loaded_get.
  - intros k Hk. rewrite loaded_get.
    destruct (last_binding members k); [discriminate|].
    cbn [akDefaultConfig map fst In] in Hk.
    repeat (destruct Hk as [<-|Hk]; [vm_compute; discriminate|]).
    destruct Hk.
Qed.

Lemma load_lays_file_over_defaults_witness :
  write_file no_files "ak_config.json"
             (JsonObject [("serial_port", VStr "COM7"); ("led", VInt 13);
                          ("serial_port", VStr "/dev/ttyUSB0")]%string)
             "ak_config.json"%string
  = Some (JsonObject [("serial_port", VStr "COM7"); ("led", VInt 13);
                      ("serial_port", VStr "/dev/ttyUSB0")]%string)
  /\ exists d : dict,
      fst (ahmdLoadConfig
             (mkConfigManager "ak_config.json" None)
             (write_file no_files "ak_config.json"
                (JsonObject [("serial_port", VStr "COM7"); ("led", VInt 13);
                             ("serial_port", VStr "/dev/ttyUSB0")]%string)))
      = Ok d
      /\ dict_get d "serial_port" = Some (VStr "/dev/ttyUSB0")
      /\ dict_get d "baud_rate" = Some (VInt 9600)
      /\ dict_get d "led" = Some (VInt 13).
Proof.
  split; [reflexivity|].
  destruct (load_lays_file_over_defaults
              (mkConfigManager "ak_config.json" None)
              (write_file no_files "ak_config.json"
                 (JsonObject [("serial_port", VStr "COM7"); ("led", VInt 13);
                              ("serial_port", VStr "/dev/ttyUSB0")]%string))
              _ eq_refl) as [d [E [G _]]].
  exists d. split; [now rewrite E|].
  rewrite !G. repeat split.
Defined.

(** With no configuration file, a load that comes back (the file could
    be created) gives the defaults and has written them to the file,
    leaving every other file alone; loading again then gives the same
    defaults and writes nothing.  A load that raises because the file
    cannot be created is not spoken of. *)
Theorem load_without_file_creates_defaults
        (self : AKConfigManager) (fs fs' : Files) (d : dict) :
  fs (config_file self) = None ->
  ahmdLoadConfig self fs = (Ok d, fs') ->
  d = akDefaultConfig
  /\ fs' (config_file self) = Some (JsonObject akDefaultConfig)
  /\ (forall path : string, path <> config_file self -> fs' path = fs path)
  /\ ahmdLoadConfig self fs' = (Ok akDefaultConfig, fs').
Proof.
  intros H L. unfold ahmdLoadConfig in L. rewrite H in L.
  cbn [akSaveConfig dict_truthy akDefaultConfig] in L.
  injection L as <- <-.
  split; [reflexivity|]. split; [|split].
  - unfold write_file. now rewrite String.eqb_refl.
  - intros path Ne. unfold write_file.
    now rewrite (proj2 (String.eqb_neq path (config_file self)) Ne).
  - unfold ahmdLoadConfig, write_file at 1. rewrite String.eqb_refl.
    reflexivity.
Qed.

Lemma load_without_file_creates_defaults_witness :
  no_files "ak_config.json"%string = None
  /\ ahmdLoadConfig (mkConfigManager "ak_config.json" None) no_files
     = (Ok akDefaultConfig,
        write_file no_files "ak_config.json" (JsonObject akDefaultConfig))
  /\ ahmdLoadConfig (mkConfigManager "ak_config.json" None)
       (write_file no_files "ak_config.json" (JsonObject akDefaultConfig))
     = (Ok akDefaultConfig,
        write_file no_files "ak_config.json" (JsonObject akDefaultConfig)).
Proof.
  split; [reflexivity|]. split; [reflexivity|].
  apply (load_without_file_creates_defaults
           (mkConfigManager "ak_config.json" None) no_files
           (write_file no_files "ak_config.json" (JsonObject akDefaultConfig))
           akDefaultConfig); reflexivity.
Defined.



Section Restart.

Lemma overridden_keeps_keys (args : Args) (d : dict) (k : string) :
  dict_get (overridden args d) k = None -> dict_get d k = None.
Proof.
  rewrite overridden_get.
  destruct (String.eqb k "debug_mode" && arg_debug args)%bool;
    [discriminate|].
  destruct (arg_camera args), (port_given (arg_port args));
    repeat match goal with
           | |- context [String.eqb k ?s] => destruct (String.eqb k s)
           end; try discriminate; exact (fun H => H).
Qed.

Lemma overridden_without_flags (file : string) (d : dict) :
  overridden (mkArgs file None None false) d = d.
Proof. reflexivity. Qed.

(** Loading what was saved: every key reads as it was saved, provided the
    saved dict has all the default keys. *)
Lemma reload_get (d : dict) (k : string) :
  NoDup (map fst d) ->
  (dict_get d k = None -> dict_get akDefaultConfig k = None) ->
  dict_get (dict_merge akDefaultConfig (json_dict d)) k = dict_get d k.
Proof.
  intros N Full. rewrite loaded_get, (last_binding_dict d k N).
  destruct (dict_get d k); [reflexivity | now apply Full].
Qed.

End Restart.

(** Overrides given on one start are remembered by the next: if the
    program started with some flags and its configuration was set up, a
    later start on the files it left, with the same [--config] and no
    other flag, reads every setting as the first start had it. *)
Theorem overrides_survive_restart
        (args : Args) (fs fs1 : Files) (cm1 : AKConfigManager) :
  startup_config args fs = (Ok cm1, fs1) ->
  exists (cm2 : AKConfigManager) (fs2 : Files),
    startup_config (mkArgs (arg_config args) None None false) fs1
    = (Ok cm2, fs2)
    /\ (forall k : string, ahmdGetConfig cm2 k = ahmdGetConfig cm1 k)
    /\ (forall path : string,
          path <> arg_config args -> fs2 path = fs1 path).
Proof.
  intros H.
  assert (Shape : exists d0 : dict,
             NoDup (map fst d0)
             /\ (forall k, dict_get d0 k = None ->
                           dict_get akDefaultConfig k = None)
             /\ cm1 = mkConfigManager (arg_config args)
                                      (Some (overridden args d0))
             /\ fs1 (arg_config args)
                = Some (JsonObject (overridden args d0))).
  { unfold startup_config, new_config_manager, ahmdLoadConfig in H.
    cbn [config_file] in H.
    destruct (fs (arg_config args)) as [[members| |]|] eqn:F;
      try discriminate H.
    - unfold akApplyCommandOverrides, akSaveConfig in H.
      cbn [config config_file dict_truthy] in H.
      injection H as <- <-.
      exists (dict_merge akDefaultConfig (json_dict members)).
      split; [apply NoDup_dict_merge, NoDup_defaults|].
      split; [|split; [reflexivity|]].
      + intros k. rewrite loaded_get.
        now destruct (last_binding members k).
      + unfold write_file. now rewrite String.eqb_refl.
    - unfold akSaveConfig in H. cbn [dict_truthy akDefaultConfig] in H.
      unfold akApplyCommandOverrides, akSaveConfig in H.
      cbn [config config_file dict_truthy] in H.
      injection H as <- <-.
      exists akDefaultConfig.
      split; [apply NoDup_defaults|].
      split; [intros k E; exact E|]. split; [reflexivity|].
      unfold write_file. now rewrite String.eqb_refl. }
  destruct Shape as (d0 & N0 & Full0 & -> & F1).
  unfold startup_config, new_config_manager, ahmdLoadConfig.
  cbn [arg_config config_file]. rewrite F1.
  unfold akApplyCommandOverrides, akSaveConfig.
  cbn [config config_file dict_truthy].
  rewrite overridden_without_flags.
  eexists. eexists. split; [reflexivity|]. split.
  - intros k. unfold ahmdGetConfig. cbn [config].
    rewrite reload_get; [reflexivity | now apply NoDup_overridden |].
    intros E. apply Full0. now apply (overridden_keeps_keys args).
  - intros path Ne. unfold write_file.
    now rewrite (proj2 (String.eqb_neq path (arg_config args)) Ne).
Qed.

Lemma overrides_survive_restart_witness :
  exists (cm1 cm2 : AKConfigManager) (fs1 fs2 : Files),
    startup_config (mkArgs "ak_config.json" (Some "COM9"%string) (Some 2) true)
                   no_files = (Ok cm1, fs1)
    /\ startup_config (mkArgs "ak_config.json" None None false) fs1
       = (Ok cm2, fs2)
    /\ ahmdGetConfig cm2 "serial_port" = VStr "COM9"
    /\ ahmdGetConfig cm2 "camera_index" = VInt 2
    /\ ahmdGetConfig cm2 "debug_mode" = VBool true
    /\ ahmdGetConfig cm2 "baud_rate" = VInt 9600.
Proof.
  destruct (overrides_survive_restart
              (mkArgs "ak_config.json" (Some "COM9"%string) (Some 2) true)
              no_files _ _ eq_refl) as (cm2 & fs2 & E & G & _).
  eexists _, cm2, _, fs2.
  split; [reflexivity|]. split; [exact E|].
  rewrite !G. repeat split.
Defined.

(** The key that ends the loop: [key & 0xFF == 27] holds exactly for the
    keys whose low byte is 27.  So 27 ends it, as does 27 with higher bits
    set; -1, which [cv2.waitKey] gives when no key was pressed, does not. *)
Theorem esc_is_low_byte_27 (key : Z) :
  (esc_pressed key = true <-> key mod 256 = 27)
  /\ esc_pressed (-1) = false.
Proof.
  split; [|reflexivity].
  unfold esc_pressed. change 255 with (Z.ones 8).
  rewrite Z.land_ones by lia. change (2 ^ 8) with 256.
  apply Z.eqb_eq.
Qed.

(** A run on the stand-in camera: a frame with three fingers, an empty
    frame, a frame with three fingers on which ESC is pressed, and a frame
    that is never reached.  Two counts are sent, three frames shown, and
    the shutdown is done. *)
Example run_three_frames_then_esc :
  fst (run_on_stage device_present CleanupFine three_frames_then_esc)
  = Returned
  /\ send_calls (trace (arduino_world
                          (snd (run_on_stage device_present CleanupFine
                                  three_frames_then_esc))))
     = [PyInt 3; PyInt 3]
  /\ writes (trace (arduino_world
                      (snd (run_on_stage device_present CleanupFine
                              three_frames_then_esc))))
     = [["3"%byte]; ["3"%byte]]
  /\ closes (trace (arduino_world
                      (snd (run_on_stage device_present CleanupFine
                              three_frames_then_esc))))
     = [mkSerial 0 "COM3" 9600 2]
  /\ length (shown_frames
               (ui (snd (run_on_stage device_present CleanupFine
                           three_frames_then_esc)))) = 3%nat
  /\ releases (ui (snd (run_on_stage device_present CleanupFine
                          three_frames_then_esc))) = 1%nat.
Proof. vm_compute. repeat split. Qed.

(** A run in which [cv2.imshow] raises on the second frame and
    [cv2.destroyAllWindows] raises in the shutdown: both counts were sent,
    one frame was shown, the error of the teardown leaves the method, the
    camera was released, and the port is left open with the flag set. *)
Example run_with_window_errors :
  fst (run_on_stage device_present
         (TeardownRaises (OtherException "cv2.error: destroyAllWindows"))
         frame_then_imshow_error)
  = Propagated (OtherException "cv2.error: destroyAllWindows")
  /\ send_calls (trace (arduino_world
                          (snd (run_on_stage device_present
                                  (TeardownRaises
                                     (OtherException
                                        "cv2.error: destroyAllWindows"))
                                  frame_then_imshow_error))))
     = [PyInt 3; PyInt 3]
  /\ length (shown_frames
               (ui (snd (run_on_stage device_present
                           (TeardownRaises
                              (OtherException "cv2.error: destroyAllWindows"))
                           frame_then_imshow_error)))) = 1%nat
  /\ closes (trace (arduino_world
                      (snd (run_on_stage device_present
                              (TeardownRaises
                                 (OtherException
                                    "cv2.error: destroyAllWindows"))
                              frame_then_imshow_error))))
     = []
  /\ isConnected (chan (arduino_world
                          (snd (run_on_stage device_present
                                  (TeardownRaises
                                     (OtherException
                                        "cv2.error: destroyAllWindows"))
                                  frame_then_imshow_error))))
     = true.
Proof. vm_compute. repeat split. Qed.


